(** * ingress53: Route 53 zone handle, CNAME changes and the propagation wait

    A shallow embedding of [route53.go] and the properties of its four
    parts: zone resolution ([newRoute53Zone], [setZone]), the ownership
    check ([recordBelongsToZone]), change submission ([changeCname]) and
    the wait for propagation ([waitForChange]). *)

From Stdlib Require Import ZArith Ascii.
From stdpp Require Import base option list strings.

Local Open Scope Z_scope.

(** ** Go strings

    A Go string is a sequence of bytes; [string] is a sequence of 8-bit
    [ascii] characters.  The functions below are the ones the program
    takes from Go's [strings] package and the slice expressions their
    implementations are written with. *)

Module strings.

(** [len(s)] *)
Definition len (s : string) : nat := String.length s.

(** [s[lo:hi]] for [lo <= hi <= len(s)] *)
Definition slice (s : string) (lo hi : nat) : string :=
  String.substring lo (hi - lo) s.

(** [strings.IndexByte(s, c) >= 0] *)
Fixpoint ContainsByte (s : string) (c : ascii) : bool :=
  match s with
  | EmptyString => false
  | String a s' => if Ascii.eqb a c then true else ContainsByte s' c
  end.

(** [strings.HasPrefix(s, prefix)]:
    [len(s) >= len(prefix) && s[:len(prefix)] == prefix] *)
Definition HasPrefix (s prefix : string) : bool :=
  (len prefix <=? len s)%nat && String.eqb (slice s 0 (len prefix)) prefix.

(** [strings.HasSuffix(s, suffix)]:
    [len(s) >= len(suffix) && s[len(s)-len(suffix):] == suffix] *)
Definition HasSuffix (s suffix : string) : bool :=
  (len suffix <=? len s)%nat
  && String.eqb (slice s (len s - len suffix) (len s)) suffix.

(** [strings.TrimSuffix(s, suffix)]: [s[:len(s)-len(suffix)]] when [s]
    has the suffix, [s] otherwise. *)
Definition TrimSuffix (s suffix : string) : string :=
  if HasSuffix s suffix then slice s 0 (len s - len suffix) else s.

(** [strings.Contains(s, substr)]: [strings.Index(s, substr) >= 0], that
    is, [substr] starts at some position of [s]. *)
Fixpoint Contains (s substr : string) : bool :=
  HasPrefix s substr
  || match s with
     | EmptyString => false
     | String _ s' => Contains s' substr
     end.

(** [strings.TrimLeft(s, cutset)] and [strings.TrimRight(s, cutset)] for a
    cutset of ASCII bytes: the leading (trailing) bytes of [s] that occur
    in [cutset] are dropped. *)
Fixpoint TrimLeft (s cutset : string) : string :=
  match s with
  | EmptyString => EmptyString
  | String a s' => if ContainsByte cutset a then TrimLeft s' cutset else s
  end.

Fixpoint TrimRight (s cutset : string) : string :=
  match s with
  | EmptyString => EmptyString
  | String a s' =>
      match TrimRight s' cutset with
      | EmptyString =>
          if ContainsByte cutset a then EmptyString else String a EmptyString
      | t => String a t
      end
  end.

(** [strings.Trim(s, cutset)]: both ends are trimmed. *)
Definition Trim (s cutset : string) : string :=
  TrimLeft (TrimRight s cutset) cutset.

End strings.

(** ** The ownership check *)

(** [recordBelongsToZone] of [route53.go]. *)
Definition recordBelongsToZone (record zone : string) : bool :=
  let zone := strings.Trim zone "." in
  let record := strings.Trim record "." in
  if String.eqb record zone then false
  else
    let zoneSuffix := "." +:+ zone in
    if negb (strings.HasSuffix record zoneSuffix) then false
    else negb (strings.Contains (strings.TrimSuffix record zoneSuffix) ".").

(** ** The AWS SDK types the program exchanges with the provider

    A Go pointer is an [option]: [None] is [nil], and dereferencing it
    panics.  Each struct carries the fields this program reads or writes;
    the fields it leaves at their zero value are left out. *)

Module route53.

(** The string constants of the SDK's package [route53] that the program
    names, with the values the SDK declares for them. *)
Definition ChangeActionUpsert : string := "UPSERT".
Definition ChangeActionDelete : string := "DELETE".
Definition RRTypeCname : string := "CNAME".
Definition ChangeStatusPending : string := "PENDING".
Definition ChangeStatusInsync : string := "INSYNC".

Module ResourceRecord.
Record t := mk { Value : option string }.
End ResourceRecord.

Module ResourceRecordSet.
Record t := mk {
  Name : option string;
  TTL : option Z;
  Type_ : option string;
  ResourceRecords : list (option ResourceRecord.t) }.
End ResourceRecordSet.

Module Change.
Record t := mk {
  Action : option string;
  ResourceRecordSet : option ResourceRecordSet.t }.
End Change.

Module ChangeBatch.
Record t := mk {
  Changes : list (option Change.t);
  Comment : option string }.
End ChangeBatch.

Module ChangeResourceRecordSetsInput.
Record t := mk {
  ChangeBatch : option ChangeBatch.t;
  HostedZoneId : option string }.
End ChangeResourceRecordSetsInput.

Module ChangeInfo.
Record t := mk {
  Id : option string;
  Status : option string }.
End ChangeInfo.

Module ChangeResourceRecordSetsOutput.
Record t := mk { ChangeInfo : option ChangeInfo.t }.
End ChangeResourceRecordSetsOutput.

Module GetChangeInput.
Record t := mk { Id : option string }.
End GetChangeInput.

Module GetChangeOutput.
Record t := mk { ChangeInfo : option ChangeInfo.t }.
End GetChangeOutput.

Module ListHostedZonesByNameInput.
Record t := mk {
  DNSName : option string;
  MaxItems : option string }.
End ListHostedZonesByNameInput.

Module HostedZone.
Record t := mk {
  Id : option string;
  Name : option string }.
End HostedZone.

Module ListHostedZonesByNameOutput.
Record t := mk { HostedZones : list (option HostedZone.t) }.
End ListHostedZonesByNameOutput.

Module GetHostedZoneInput.
Record t := mk { Id : option string }.
End GetHostedZoneInput.

Module DelegationSet.
Record t := mk { NameServers : list (option string) }.
End DelegationSet.

Module GetHostedZoneOutput.
Record t := mk {
  HostedZone : option HostedZone.t;
  DelegationSet : option DelegationSet.t }.
End GetHostedZoneOutput.

End route53.

(** An error of the provider, as the SDK's [awserr.Error] presents it. *)
Record awserr := { Code : string; Message : string }.

(** The values of Go's [error] that the program returns: its three
    package-level sentinels, which no provider can produce, and the
    provider's own errors, passed on as they are.  [None] is [nil]. *)
Inductive err : Type :=
| errRoute53NoHostedZoneFound
| errRoute53WaitWatchTimedOut
| errRoute53RecordNotInZone
| providerError (e : awserr).

Definition error : Type := option err.

(** The provider's answer: the Go pair of an output pointer and an
    [error] that every SDK operation returns. *)
Definition response (O : Type) : Type := (option O * option awserr)%type.

(** [route53iface.Route53API], restricted to the four operations the
    program calls.  [P] is the state of the provider behind the
    interface; every operation may change it. *)
Record Route53API (P : Type) := {
  ListHostedZonesByName :
    route53.ListHostedZonesByNameInput.t -> P ->
    P * response route53.ListHostedZonesByNameOutput.t;
  GetHostedZone :
    route53.GetHostedZoneInput.t -> P ->
    P * response route53.GetHostedZoneOutput.t;
  ChangeResourceRecordSets :
    route53.ChangeResourceRecordSetsInput.t -> P ->
    P * response route53.ChangeResourceRecordSetsOutput.t;
  GetChange :
    route53.GetChangeInput.t -> P ->
    P * response route53.GetChangeOutput.t }.

Arguments ListHostedZonesByName {P} _ _ _.
Arguments GetHostedZone {P} _ _ _.
Arguments ChangeResourceRecordSets {P} _ _ _.
Arguments GetChange {P} _ _ _.

(** The provider calls a run makes, to be recorded in order. *)
Inductive api_call : Type :=
| CallListHostedZonesByName (input : route53.ListHostedZonesByNameInput.t)
| CallGetHostedZone (input : route53.GetHostedZoneInput.t)
| CallChangeResourceRecordSets (input : route53.ChangeResourceRecordSetsInput.t)
| CallGetChange (input : route53.GetChangeInput.t).

(** ** Time *)

Module time.

(** [time.Duration] counts nanoseconds in an [int64]. *)
Definition Second : Z := 1000000000.
Definition Minute : Z := 60 * Second.

(** A [*time.Timer] or [*time.Ticker] of the runtime: its duration,
    whether it fires repeatedly, and whether it is still running. *)
Record timer := mkTimer {
  duration : Z;
  periodic : bool;
  running : bool }.

Definition stop (t : timer) : timer :=
  {| duration := duration t; periodic := periodic t; running := false |}.

End time.

Definition defaultRoute53RecordTTL : Z := 60.
Definition defaultRoute53ZoneWaitWatchInterval : Z := 10 * time.Second.
Definition defaultRoute53ZoneWaitWatchTimeout : Z := 2 * time.Minute.

(** The case a [select] of [waitForChange] takes when it wakes up. *)
Inductive select_case : Type :=
| tick_C
| timeout_C.

(** ** Runs of the program

    A run threads the [world]: the provider's state, the calls made to it
    so far (oldest first), the timers the runtime has handed out (a
    handle is an index into the list) and the lines written to the log.
    A run ends by returning, by panicking on a [nil] dereference, or not
    at all: it stays blocked in a [select] that nothing wakes up. *)

Record world (P : Type) := mkWorld {
  stub : P;
  calls : list api_call;
  timers : list time.timer;
  logs : list string }.

Arguments mkWorld {P} _ _ _ _.
Arguments stub {P} _.
Arguments calls {P} _.
Arguments timers {P} _.
Arguments logs {P} _.

Inductive outcome (A : Type) : Type :=
| Returned (a : A)
| Panicked
| Blocked.

Arguments Returned {A} _.
Arguments Panicked {A}.
Arguments Blocked {A}.

(** A computation of the program: from a world to the world it leaves
    and how it ended. *)
Definition M (P A : Type) : Type := world P -> world P * outcome A.

Global Instance M_ret {P} : MRet (M P) := fun A a w => (w, Returned a).

Global Instance M_bind {P} : MBind (M P) := fun A B k m w =>
  match m w with
  | (w1, Returned a) => k a w1
  | (w1, Panicked) => (w1, Panicked)
  | (w1, Blocked) => (w1, Blocked)
  end.

Section Program.

Context {P : Type}.

(** [*p] *)
Definition deref {A} (p : option A) : M P A := fun w =>
  (w, match p with Some a => Returned a | None => Panicked end).

(** A blocked [select]. *)
Definition block {A} : M P A := fun w => (w, Blocked).

(** A call of an operation of the provider: the call is recorded and the
    provider moves on. *)
Definition invoke {I O} (record : I -> api_call)
    (op : I -> P -> P * response O) (input : I) : M P (response O) := fun w =>
  let '(p, r) := op input (stub w) in
  (mkWorld p (calls w ++ [record input]) (timers w) (logs w), Returned r).

(** [log.Println] and [log.Printf], with the line already formatted. *)
Definition log_Println (line : string) : M P unit := fun w =>
  (mkWorld (stub w) (calls w) (timers w) (logs w ++ [line]), Returned ()).

(** [time.NewTimer(d)] and [time.NewTicker(d)]: the handle of a new
    running timer. *)
Definition NewTimer (d : Z) : M P nat := fun w =>
  (mkWorld (stub w) (calls w) (timers w ++ [time.mkTimer d false true])
     (logs w),
   Returned (length (timers w))).

Definition NewTicker (d : Z) : M P nat := fun w =>
  (mkWorld (stub w) (calls w) (timers w ++ [time.mkTimer d true true])
     (logs w),
   Returned (length (timers w))).

(** [t.Stop()] *)
Definition Stop (t : nat) : M P unit := fun w =>
  (mkWorld (stub w) (calls w) (alter time.stop t (timers w)) (logs w),
   Returned ()).

(** [defer]: the deferred call runs when the body returns or panics. *)
Definition defer {A} (deferred : M P unit) (body : M P A) : M P A := fun w =>
  match body w with
  | (w1, Blocked) => (w1, Blocked)
  | (w1, r) => (fst (deferred w1), r)
  end.

(** [route53Zone] *)
Record route53Zone := mkZone {
  api : Route53API P;
  Name : string;
  ID : string;
  Nameservers : list string }.

(** The loop of [setZone] over [zone.DelegationSet.NameServers]:
    [z.Nameservers[i] = *ns]. *)
Fixpoint copyNameServers (i : nat) (nameServers : list (option string))
    (dst : list string) : M P (list string) :=
  match nameServers with
  | [] => mret dst
  | ns :: rest =>
      v ← deref ns;
      copyNameServers (S i) rest (<[i := v]> dst)
  end.

(** [setZone]; the receiver is passed in and handed back.  A panic
    unwinds through [newRoute53Zone], the only caller, after which
    nothing holds the zone any more: the outcome [Panicked] carries
    none. *)
Definition setZone (z : route53Zone) (name : string)
    : M P (route53Zone * error) :=
  '(zones, err) ← invoke CallListHostedZonesByName
      (ListHostedZonesByName (api z))
      (route53.ListHostedZonesByNameInput.mk (Some name) (Some "1"));
  match err with
  | Some e => mret (z, Some (providerError e))
  | None =>
      zones ← deref zones;
      match route53.ListHostedZonesByNameOutput.HostedZones zones with
      | [] => mret (z, Some errRoute53NoHostedZoneFound)
      | first :: _ =>
          first ← deref first;
          firstName ← deref (route53.HostedZone.Name first);
          if negb (String.eqb firstName name)
          then mret (z, Some errRoute53NoHostedZoneFound)
          else
            '(zone, err) ← invoke CallGetHostedZone
                (GetHostedZone (api z))
                (route53.GetHostedZoneInput.mk (route53.HostedZone.Id first));
            match err with
            | Some e => mret (z, Some (providerError e))
            | None =>
                zone ← deref zone;
                hostedZone ← deref (route53.GetHostedZoneOutput.HostedZone zone);
                id ← deref (route53.HostedZone.Id hostedZone);
                log_Println
                  ("[DEBUG] found matching route53 hosted zone: " +:+ id);;
                let z := mkZone (api z) name (ID z) (Nameservers z) in
                let z := mkZone (api z) (Name z) id (Nameservers z) in
                delegationSet ←
                  deref (route53.GetHostedZoneOutput.DelegationSet zone);
                let nameServers :=
                  route53.DelegationSet.NameServers delegationSet in
                nss ← copyNameServers 0 nameServers
                        (replicate (length nameServers) "");
                mret (mkZone (api z) (Name z) (ID z) nss, None)
            end
      end
  end.

(** [newRoute53Zone]; the result is the Go pair of a zone pointer and an
    error. *)
Definition newRoute53Zone (zoneName : string) (route53session : Route53API P)
    : M P (option route53Zone * error) :=
  let ret := mkZone route53session "" "" [] in
  '(ret, err) ← setZone ret zoneName;
  match err with
  | Some e => mret (None, Some e)
  | None => mret (Some ret, None)
  end.

(** The [for] / [select] loop of [waitForChange].  [sched] lists the
    cases the successive [select]s take; when it is used up, nothing
    wakes the loop any more. *)
Fixpoint waitLoop (z : route53Zone) (changeID : string)
    (sched : list select_case) : M P error :=
  match sched with
  | [] => block
  | tick_C :: sched' =>
      '(change, err) ← invoke CallGetChange (GetChange (api z))
          (route53.GetChangeInput.mk (Some changeID));
      match err with
      | Some e => mret (Some (providerError e))
      | None =>
          change ← deref change;
          changeInfo ← deref (route53.GetChangeOutput.ChangeInfo change);
          status ← deref (route53.ChangeInfo.Status changeInfo);
          if String.eqb status route53.ChangeStatusInsync
          then mret None
          else
            log_Println
              "[DEBUG] route53 changes are still being applied, waiting for 10s";;
            waitLoop z changeID sched'
      end
  | timeout_C :: _ => mret (Some errRoute53WaitWatchTimedOut)
  end.

(** [waitForChange] *)
Definition waitForChange (z : route53Zone) (changeID : string)
    (sched : list select_case) : M P error :=
  timeout ← NewTimer defaultRoute53ZoneWaitWatchTimeout;
  tick ← NewTicker defaultRoute53ZoneWaitWatchInterval;
  defer (Stop timeout;; Stop tick) (waitLoop z changeID sched).

(** [changeCname] *)
Definition changeCname (z : route53Zone) (action recordName value : string)
    (sched : list select_case) : M P error :=
  if negb (recordBelongsToZone recordName (Name z))
  then mret (Some errRoute53RecordNotInZone)
  else
    let rr :=
      if String.eqb action route53.ChangeActionDelete
      then route53.ResourceRecordSet.mk (Some recordName) None None []
      else route53.ResourceRecordSet.mk (Some recordName)
             (Some defaultRoute53RecordTTL) (Some route53.RRTypeCname)
             [Some (route53.ResourceRecord.mk (Some value))] in
    '(resp, err) ← invoke CallChangeResourceRecordSets
        (ChangeResourceRecordSets (api z))
        (route53.ChangeResourceRecordSetsInput.mk
           (Some (route53.ChangeBatch.mk
                    [Some (route53.Change.mk (Some action) (Some rr))]
                    (Some "Managed by ingress-route53-registrator")))
           (Some (ID z)));
    match err with
    | Some e => mret (Some (providerError e))
    | None =>
        log_Println
          "[DEBUG] route53 changes have been submitted, waiting for nameservers to sync";;
        resp ← deref resp;
        changeInfo ←
          deref (route53.ChangeResourceRecordSetsOutput.ChangeInfo resp);
        id ← deref (route53.ChangeInfo.Id changeInfo);
        waitForChange z id sched
    end.

(** [UpsertCname] and [DeleteCname] *)
Definition UpsertCname (z : route53Zone) (recordName value : string)
    (sched : list select_case) : M P error :=
  changeCname z route53.ChangeActionUpsert recordName value sched.

Definition DeleteCname (z : route53Zone) (recordName : string)
    (sched : list select_case) : M P error :=
  changeCname z route53.ChangeActionDelete recordName "" sched.

End Program.

Arguments route53Zone : clear implicits.

(** ** Vocabulary of the properties *)

(** A run of [n] dots. *)
Fixpoint dots (n : nat) : string :=
  match n with
  | O => ""
  | S n' => String "." (dots n')
  end.

(** [s] neither starts nor ends with a dot. *)
Definition dot_free_ends (s : string) : Prop :=
  (forall t, s <> "." +:+ t) /\ (forall t, s <> t +:+ ".").

(** [label] is one DNS label: not empty and without a dot. *)
Definition is_label (label : string) : Prop :=
  label <> "" /\ forall pre post, label <> pre +:+ "." +:+ post.

(** The three checks of [recordBelongsToZone] on names that are already
    normalized: not the apex, under the apex, and directly under it. *)
Definition direct_child (record zone : string) : bool :=
  negb (String.eqb record zone)
  && strings.HasSuffix record ("." +:+ zone)
  && negb (strings.Contains (strings.TrimSuffix record ("." +:+ zone)) ".").

(** The normalization in the words of the specification: a single
    trailing dot is stripped and nothing else changes. *)
Definition strip_single_trailing_dot (s : string) : string :=
  strings.TrimSuffix s ".".

(** The ownership rule in the words of the specification. *)
Definition belongsToZone_spec (recordName zoneName : string) : bool :=
  direct_child (strip_single_trailing_dot recordName)
               (strip_single_trailing_dot zoneName).

(** The statuses that successive polls of a change report, as long as
    the provider answers: [observes a id p sts p'] when polling from
    state [p] yields the statuses [sts] in turn and leaves the provider
    in [p']. *)
Inductive observes {P} (a : Route53API P) (changeID : string)
    : P -> list string -> P -> Prop :=
| observes_nil p : observes a changeID p [] p
| observes_cons p p1 p2 out info status sts :
    GetChange a (route53.GetChangeInput.mk (Some changeID)) p
      = (p1, (Some out, None)) ->
    route53.GetChangeOutput.ChangeInfo out = Some info ->
    route53.ChangeInfo.Status info = Some status ->
    observes a changeID p1 sts p2 ->
    observes a changeID p (status :: sts) p2.

(** The two timers of [waitForChange], both stopped. *)
Definition stopped_timers : list time.timer :=
  [ time.mkTimer defaultRoute53ZoneWaitWatchTimeout false false;
    time.mkTimer defaultRoute53ZoneWaitWatchInterval true false ].

(** A poll of the change [changeID]. *)
Definition poll_call (changeID : string) : api_call :=
  CallGetChange (route53.GetChangeInput.mk (Some changeID)).

(** [c] is a call of [GetChange]. *)
Definition is_poll (c : api_call) : Prop :=
  match c with
  | CallGetChange _ => True
  | _ => False
  end.

(** The world after [n] polls of [changeID] that found the change still
    being applied and left the provider in state [p]: [n] more calls and
    [n] more lines in the log. *)
Definition polled {P} (w : world P) (changeID : string) (n : nat) (p : P)
    : world P :=
  mkWorld p
    (calls w ++ replicate n (poll_call changeID))
    (timers w)
    (logs w ++ replicate n
       "[DEBUG] route53 changes are still being applied, waiting for 10s").

(** One more poll, after which the provider is in state [p] and nothing
    is logged. *)
Definition polled_last {P} (w : world P) (changeID : string) (p : P)
    : world P :=
  mkWorld p (calls w ++ [poll_call changeID]) (timers w) (logs w).

(** The world once [waitForChange] has created and stopped its timers. *)
Definition timers_released {P} (w : world P) : world P :=
  mkWorld (stub w) (calls w) (timers w ++ stopped_timers) (logs w).

(** The world after [ListHostedZonesByName] has been called for [name]
    and has left the provider in state [p]. *)
Definition listed {P} (w : world P) (name : string) (p : P) : world P :=
  mkWorld p
    (calls w ++
       [CallListHostedZonesByName
          (route53.ListHostedZonesByNameInput.mk (Some name) (Some "1"))])
    (timers w) (logs w).

(** The world after [GetHostedZone] has then been called for the zone
    identifier [id] and has left the provider in state [p]. *)
Definition fetched {P} (w : world P) (name : string) (id : option string)
    (p : P) : world P :=
  mkWorld p
    (calls w ++
       [CallListHostedZonesByName
          (route53.ListHostedZonesByNameInput.mk (Some name) (Some "1"));
        CallGetHostedZone (route53.GetHostedZoneInput.mk id)])
    (timers w) (logs w).

(** The same world once the zone found has been logged. *)
Definition found {P} (w : world P) (name : string) (id : option string)
    (p : P) (zoneID : string) : world P :=
  mkWorld p (calls (fetched w name id p)) (timers w)
    (logs w ++ ["[DEBUG] found matching route53 hosted zone: " +:+ zoneID]).

(** The paths through [setZone], by the answers of the provider. *)
Inductive resolution {P} (z : route53Zone P) (name : string) (w : world P)
    : world P -> outcome (route53Zone P * error) -> Prop :=
| resolution_list_error p1 out e :
    ListHostedZonesByName (api z)
      (route53.ListHostedZonesByNameInput.mk (Some name) (Some "1")) (stub w)
      = (p1, (out, Some e)) ->
    resolution z name w (listed w name p1)
      (Returned (z, Some (providerError e)))
| resolution_no_zone p1 out :
    ListHostedZonesByName (api z)
      (route53.ListHostedZonesByNameInput.mk (Some name) (Some "1")) (stub w)
      = (p1, (Some out, None)) ->
    route53.ListHostedZonesByNameOutput.HostedZones out = [] ->
    resolution z name w (listed w name p1)
      (Returned (z, Some errRoute53NoHostedZoneFound))
| resolution_other_zone p1 out first rest firstName :
    ListHostedZonesByName (api z)
      (route53.ListHostedZonesByNameInput.mk (Some name) (Some "1")) (stub w)
      = (p1, (Some out, None)) ->
    route53.ListHostedZonesByNameOutput.HostedZones out = Some first :: rest ->
    route53.HostedZone.Name first = Some firstName ->
    firstName <> name ->
    resolution z name w (listed w name p1)
      (Returned (z, Some errRoute53NoHostedZoneFound))
| resolution_get_error p1 out first rest p2 zone e :
    ListHostedZonesByName (api z)
      (route53.ListHostedZonesByNameInput.mk (Some name) (Some "1")) (stub w)
      = (p1, (Some out, None)) ->
    route53.ListHostedZonesByNameOutput.HostedZones out = Some first :: rest ->
    route53.HostedZone.Name first = Some name ->
    GetHostedZone (api z)
      (route53.GetHostedZoneInput.mk (route53.HostedZone.Id first)) p1
      = (p2, (zone, Some e)) ->
    resolution z name w (fetched w name (route53.HostedZone.Id first) p2)
      (Returned (z, Some (providerError e)))
| resolution_found p1 out first rest p2 zone hostedZone id delegationSet nss :
    ListHostedZonesByName (api z)
      (route53.ListHostedZonesByNameInput.mk (Some name) (Some "1")) (stub w)
      = (p1, (Some out, None)) ->
    route53.ListHostedZonesByNameOutput.HostedZones out = Some first :: rest ->
    route53.HostedZone.Name first = Some name ->
    GetHostedZone (api z)
      (route53.GetHostedZoneInput.mk (route53.HostedZone.Id first)) p1
      = (p2, (Some zone, None)) ->
    route53.GetHostedZoneOutput.HostedZone zone = Some hostedZone ->
    route53.HostedZone.Id hostedZone = Some id ->
    route53.GetHostedZoneOutput.DelegationSet zone = Some delegationSet ->
    route53.DelegationSet.NameServers delegationSet = map Some nss ->
    resolution z name w (found w name (route53.HostedZone.Id first) p2 id)
      (Returned (mkZone (api z) name id nss, None))
| resolution_panic w' :
    resolution z name w w' Panicked.

(** The mutation [changeCname] sends for a zone identifier, an action, a
    record name and a value. *)
Definition mutation (zoneID action recordName value : string)
    : route53.ChangeResourceRecordSetsInput.t :=
  route53.ChangeResourceRecordSetsInput.mk
    (Some (route53.ChangeBatch.mk
       [Some (route53.Change.mk (Some action)
          (Some (if String.eqb action route53.ChangeActionDelete
                 then route53.ResourceRecordSet.mk
                        (Some recordName) None None []
                 else route53.ResourceRecordSet.mk
                        (Some recordName) (Some defaultRoute53RecordTTL)
                        (Some route53.RRTypeCname)
                        [Some (route53.ResourceRecord.mk (Some value))])))]
       (Some "Managed by ingress-route53-registrator")))
    (Some zoneID).

(** The world after the mutation [input] has been sent and has left the
    provider in state [p]. *)
Definition sent {P} (w : world P)
    (input : route53.ChangeResourceRecordSetsInput.t) (p : P) : world P :=
  mkWorld p (calls w ++ [CallChangeResourceRecordSets input]) (timers w)
    (logs w).

(** The same world once the submission has been logged. *)
Definition submitted {P} (w : world P)
    (input : route53.ChangeResourceRecordSetsInput.t) (p : P) : world P :=
  mkWorld p (calls w ++ [CallChangeResourceRecordSets input]) (timers w)
    (logs w ++
       ["[DEBUG] route53 changes have been submitted, waiting for nameservers to sync"]).

(** The world in which [waitForChange] has created its two timers and
    they still run. *)
Definition timers_running {P} (w : world P) : world P :=
  mkWorld (stub w) (calls w)
    (timers w ++
       [ time.mkTimer defaultRoute53ZoneWaitWatchTimeout false true;
         time.mkTimer defaultRoute53ZoneWaitWatchInterval true true ])
    (logs w).

(** The number of tick cases a schedule takes before its first timeout
    case. *)
Fixpoint ticks_before_timeout (sched : list select_case) : nat :=
  match sched with
  | tick_C :: sched' => S (ticks_before_timeout sched')
  | _ => O
  end.

(** ** A scripted provider

    A provider for the examples: it answers the zone operations and the
    change submission from a fixed script and each poll from the head of
    a list of answers, failing once the list is used up. *)

Module Stub.

Record script := mkScript {
  zonesAnswer : response route53.ListHostedZonesByNameOutput.t;
  zoneAnswer : response route53.GetHostedZoneOutput.t;
  changeAnswer : response route53.ChangeResourceRecordSetsOutput.t;
  polls : list (response route53.GetChangeOutput.t) }.

Definition exhausted : awserr :=
  {| Code := "Throttling"; Message := "Rate exceeded" |}.

Definition provider : Route53API script := {|
  ListHostedZonesByName := fun _ s => (s, zonesAnswer s);
  GetHostedZone := fun _ s => (s, zoneAnswer s);
  ChangeResourceRecordSets := fun _ s => (s, changeAnswer s);
  GetChange := fun _ s =>
    match polls s with
    | [] => (s, (None, Some exhausted))
    | r :: rest =>
        (mkScript (zonesAnswer s) (zoneAnswer s) (changeAnswer s) rest, r)
    end |}.

Definition poll (status : string) : response route53.GetChangeOutput.t :=
  (Some (route53.GetChangeOutput.mk
           (Some (route53.ChangeInfo.mk (Some "C1") (Some status)))),
   None).

Definition zones (names : list string)
    : response route53.ListHostedZonesByNameOutput.t :=
  (Some (route53.ListHostedZonesByNameOutput.mk
           (map (fun n => Some (route53.HostedZone.mk (Some "/hostedzone/Z1")
                                  (Some n))) names)),
   None).

Definition zone (id : string) (nameServers : list string)
    : response route53.GetHostedZoneOutput.t :=
  (Some (route53.GetHostedZoneOutput.mk
           (Some (route53.HostedZone.mk (Some id) (Some "example.com.")))
           (Some (route53.DelegationSet.mk (map Some nameServers)))),
   None).

Definition submitted : response route53.ChangeResourceRecordSetsOutput.t :=
  (Some (route53.ChangeResourceRecordSetsOutput.mk
           (Some (route53.ChangeInfo.mk (Some "C1")
                    (Some route53.ChangeStatusPending)))),
   None).

(** A provider that knows the zone [example.com.] and reports the given
    statuses to successive polls. *)
Definition example_com (statuses : list string) : script :=
  mkScript (zones ["example.com."])
           (zone "/hostedzone/Z1" ["ns-1.awsdns.com"; "ns-2.awsdns.org"])
           submitted
           (map poll statuses).

Definition start (s : script) : world script := mkWorld s [] [] [].

(** The zone handle of [example.com.] once resolved. *)
Definition handle : route53Zone script :=
  mkZone provider "example.com." "/hostedzone/Z1"
         ["ns-1.awsdns.com"; "ns-2.awsdns.org"].

(** The same provider, refusing every mutation. *)
Definition refusing : script :=
  mkScript (zones ["example.com."])
           (zone "/hostedzone/Z1" ["ns-1.awsdns.com"; "ns-2.awsdns.org"])
           (None, Some exhausted)
           [].

(** The same provider, accepting a mutation without naming the change. *)
Definition unnamed : script :=
  mkScript (zones ["example.com."])
           (zone "/hostedzone/Z1" ["ns-1.awsdns.com"; "ns-2.awsdns.org"])
           (Some (route53.ChangeResourceRecordSetsOutput.mk
                    (Some (route53.ChangeInfo.mk None
                             (Some route53.ChangeStatusPending)))),
            None)
           [].

(** A provider whose zone [example.com.] has no delegation set, as a
    private hosted zone has none. *)
Definition private_zone : script :=
  mkScript (zones ["example.com."])
           (Some (route53.GetHostedZoneOutput.mk
                    (Some (route53.HostedZone.mk (Some "/hostedzone/Z1")
                             (Some "example.com.")))
                    None),
            None)
           submitted
           [].

End Stub.

(** * Properties *)

(** One step of a run: the monad and its primitive operations unfolded. *)
Ltac run := unfold mbind, M_bind, mret, M_ret, invoke, deref,
  log_Println, block; simpl.

(** ** Go strings: slices, prefixes and suffixes *)

Section StringFacts.

Local Open Scope nat_scope.
Local Arguments String.append !_ _ / : simpl nomatch.
Implicit Types s t u pre post suffix : string.

Lemma string_length_app s t :
  String.length (s +:+ t) = String.length s + String.length t.
Proof. induction s as [|a s IH]; simpl; [done | by rewrite IH]. Qed.

Lemma string_app_nil_r s : s +:+ "" = s.
Proof. induction s as [|a s IH]; simpl; [done | by rewrite IH]. Qed.

Lemma string_app_assoc s t u : (s +:+ t) +:+ u = s +:+ t +:+ u.
Proof. induction s as [|a s IH]; simpl; [done | by rewrite IH]. Qed.

Lemma string_app_cancel_r s t u : s +:+ u = t +:+ u -> s = t.
Proof.
  revert t. induction s as [|a s IH]; intros [|b t] H; simpl in *.
  - done.
  - apply (f_equal String.length) in H. simpl in H.
    rewrite string_length_app in H. lia.
  - apply (f_equal String.length) in H. simpl in H.
    rewrite string_length_app in H. lia.
  - injection H as -> H. f_equal. by apply IH.
Qed.

Lemma substring_whole s : String.substring 0 (String.length s) s = s.
Proof. induction s as [|a s IH]; simpl; [done | by rewrite IH]. Qed.

Lemma substring_app_l s t :
  String.substring 0 (String.length s) (s +:+ t) = s.
Proof.
  induction s as [|a s IH]; simpl; [by destruct t | by rewrite IH].
Qed.

Lemma substring_app_r s t n :
  String.substring (String.length s) n (s +:+ t) = String.substring 0 n t.
Proof. induction s as [|a s IH]; simpl; done. Qed.

Lemma substring_split s n :
  n <= String.length s ->
  s = String.substring 0 n s +:+ String.substring n (String.length s - n) s.
Proof.
  revert n. induction s as [|a s IH]; intros [|n] Hn; simpl in *.
  - done.
  - lia.
  - by rewrite substring_whole.
  - f_equal. apply IH. lia.
Qed.

Lemma HasSuffix_spec s suffix :
  strings.HasSuffix s suffix = true <-> exists pre, s = pre +:+ suffix.
Proof.
  unfold strings.HasSuffix, strings.slice, strings.len. split.
  - intros [Hlen Heq]%andb_prop.
    apply Nat.leb_le in Hlen. apply String.eqb_eq in Heq.
    exists (String.substring 0 (String.length s - String.length suffix) s).
    pose proof (substring_split s (String.length s - String.length suffix))
      as H.
    rewrite Heq in H. apply H. lia.
  - intros [pre ->]. rewrite string_length_app.
    apply andb_true_intro. split; [apply Nat.leb_le; lia |].
    apply String.eqb_eq.
    replace (String.length pre + String.length suffix - String.length suffix)
      with (String.length pre) by lia.
    replace (String.length pre + String.length suffix - String.length pre)
      with (String.length suffix) by lia.
    by rewrite substring_app_r, substring_whole.
Qed.

Lemma TrimSuffix_app pre suffix :
  strings.TrimSuffix (pre +:+ suffix) suffix = pre.
Proof.
  unfold strings.TrimSuffix.
  rewrite (proj2 (HasSuffix_spec _ _)) by eauto.
  unfold strings.slice, strings.len. rewrite string_length_app.
  replace (String.length pre + String.length suffix - String.length suffix - 0)
    with (String.length pre) by lia.
  apply substring_app_l.
Qed.

Lemma HasPrefix_spec s pre :
  strings.HasPrefix s pre = true <-> exists post, s = pre +:+ post.
Proof.
  unfold strings.HasPrefix, strings.slice, strings.len. split.
  - intros [Hlen Heq]%andb_prop.
    apply Nat.leb_le in Hlen. apply String.eqb_eq in Heq.
    rewrite Nat.sub_0_r in Heq.
    exists (String.substring (String.length pre)
              (String.length s - String.length pre) s).
    pose proof (substring_split s (String.length pre) Hlen) as H.
    by rewrite Heq in H.
  - intros [post ->]. rewrite string_length_app.
    apply andb_true_intro. split; [apply Nat.leb_le; lia |].
    apply String.eqb_eq. rewrite Nat.sub_0_r. apply substring_app_l.
Qed.

Lemma Contains_spec s t :
  strings.Contains s t = true <-> exists pre post, s = pre +:+ t +:+ post.
Proof.
  induction s as [|a s IH].
  - simpl. rewrite orb_false_r, HasPrefix_spec. split.
    + intros [post H]. by exists "", post.
    + intros ([|b pre] & post & H); [by exists post | done].
  - cbn [strings.Contains]. rewrite orb_true_iff, HasPrefix_spec, IH. split.
    + intros [[post H] | (pre & post & H)].
      * by exists "", post.
      * exists (String a pre), post. simpl. by rewrite H.
    + intros ([|b pre] & post & H).
      * left. by exists post.
      * right. simpl in H. injection H as _ H. by exists pre, post.
Qed.

(** ** Trimming dots *)

Lemma ContainsByte_dot (a : ascii) :
  strings.ContainsByte "." a = true <-> a = "."%char.
Proof.
  unfold strings.ContainsByte.
  destruct (Ascii.eqb "." a) eqn:E.
  - apply Ascii.eqb_eq in E. by subst.
  - apply Ascii.eqb_neq in E. split; [done | by intros ->].
Qed.

Lemma TrimRight_dots s : exists m, s = strings.TrimRight s "." +:+ dots m.
Proof.
  induction s as [|a s [m IH]]; [by exists 0 |].
  cbn [strings.TrimRight].
  destruct (strings.TrimRight s ".") as [|b t] eqn:E.
  - simpl in IH. destruct (strings.ContainsByte "." a) eqn:Ha.
    + apply ContainsByte_dot in Ha as ->. exists (S m). simpl. by f_equal.
    + exists m. simpl. by f_equal.
  - exists m. simpl. by f_equal.
Qed.

Lemma TrimRight_no_trailing_dot s t : strings.TrimRight s "." <> t +:+ ".".
Proof.
  revert t. induction s as [|a s IH]; intros t; [by destruct t |].
  cbn [strings.TrimRight].
  destruct (strings.TrimRight s ".") as [|b u] eqn:E.
  - destruct (strings.ContainsByte "." a) eqn:Ha; [by destruct t |].
    destruct t as [|c [|d t]]; simpl; try done.
    intros [= ->]. by rewrite (proj2 (ContainsByte_dot _)) in Ha.
  - destruct t as [|c t]; simpl; [done |].
    intros [= -> H]. by apply (IH t).
Qed.

Lemma TrimLeft_dots s : exists n, s = dots n +:+ strings.TrimLeft s ".".
Proof.
  induction s as [|a s [n IH]]; [by exists 0 |].
  cbn [strings.TrimLeft]. destruct (strings.ContainsByte "." a) eqn:Ha.
  - apply ContainsByte_dot in Ha as ->. exists (S n). simpl. by f_equal.
  - by exists 0.
Qed.

Lemma TrimLeft_no_leading_dot s t : strings.TrimLeft s "." <> "." +:+ t.
Proof.
  induction s as [|a s IH]; [done |].
  cbn [strings.TrimLeft]. destruct (strings.ContainsByte "." a) eqn:Ha.
  - done.
  - intros [= -> _]. by rewrite (proj2 (ContainsByte_dot _)) in Ha.
Qed.

Lemma Trim_spec s :
  (exists n m, s = dots n +:+ strings.Trim s "." +:+ dots m)
  /\ dot_free_ends (strings.Trim s ".").
Proof.
  unfold strings.Trim.
  destruct (TrimRight_dots s) as [m Hm].
  destruct (TrimLeft_dots (strings.TrimRight s ".")) as [n Hn].
  split; [| split].
  - exists n, m. by rewrite <- string_app_assoc, <- Hn.
  - apply TrimLeft_no_leading_dot.
  - intros t Ht. apply (TrimRight_no_trailing_dot s (dots n +:+ t)).
    by rewrite Hn at 1; rewrite Ht, string_app_assoc.
Qed.

End StringFacts.

Section TrimFacts.

Local Arguments String.append !_ _ / : simpl nomatch.
Implicit Types s t u v : string.

Lemma TrimRight_snoc_dot s :
  strings.TrimRight (s +:+ ".") "." = strings.TrimRight s ".".
Proof. induction s as [|a s IH]; simpl; [done | by rewrite IH]. Qed.

Lemma TrimRight_app_dots s m :
  strings.TrimRight (s +:+ dots m) "." = strings.TrimRight s ".".
Proof.
  revert s. induction m as [|m IH]; intros s; simpl.
  - by rewrite string_app_nil_r.
  - change (String "." (dots m)) with ("." +:+ dots m).
    by rewrite <- string_app_assoc, IH, TrimRight_snoc_dot.
Qed.

Lemma TrimRight_id s :
  (forall t, s <> t +:+ ".") -> strings.TrimRight s "." = s.
Proof.
  induction s as [|a s IH]; intros Hs; [done |].
  cbn [strings.TrimRight]. rewrite IH.
  - destruct s as [|b s]; [| done].
    destruct (strings.ContainsByte "." a) eqn:Ha; [| done].
    apply ContainsByte_dot in Ha as ->. by destruct (Hs "").
  - intros t ->. by apply (Hs (String a t)).
Qed.

Lemma TrimLeft_dots_app n s :
  strings.TrimLeft (dots n +:+ s) "." = strings.TrimLeft s ".".
Proof. induction n as [|n IH]; simpl; done. Qed.

Lemma TrimLeft_id s :
  (forall t, s <> "." +:+ t) -> strings.TrimLeft s "." = s.
Proof.
  destruct s as [|a s]; intros Hs; [done |].
  cbn [strings.TrimLeft].
  destruct (strings.ContainsByte "." a) eqn:Ha; [| done].
  apply ContainsByte_dot in Ha as ->. by destruct (Hs s).
Qed.

Lemma no_trailing_dot_app u t :
  t <> "" -> (forall v, t <> v +:+ ".") -> forall v, u +:+ t <> v +:+ ".".
Proof.
  intros Ht Hend. induction u as [|a u IH]; intros v; simpl; [done |].
  destruct v as [|b v]; simpl.
  - intros [= _ H]. destruct u; [done | done].
  - intros [= _ H]. by apply (IH v).
Qed.

Lemma Trim_dots n m t :
  dot_free_ends t -> strings.Trim (dots n +:+ t +:+ dots m) "." = t.
Proof.
  intros [Hstart Hend]. unfold strings.Trim.
  rewrite <- string_app_assoc, TrimRight_app_dots.
  destruct (decide (t = "")) as [-> | Ht].
  - rewrite string_app_nil_r.
    change (dots n) with ("" +:+ dots n). by rewrite TrimRight_app_dots.
  - rewrite TrimRight_id by by apply no_trailing_dot_app.
    by rewrite TrimLeft_dots_app, TrimLeft_id.
Qed.

Lemma strip_single_trailing_dot_id t :
  (forall v, t <> v +:+ ".") -> strip_single_trailing_dot t = t.
Proof.
  intros Hend. unfold strip_single_trailing_dot, strings.TrimSuffix.
  destruct (strings.HasSuffix t ".") eqn:E; [| done].
  apply HasSuffix_spec in E as [pre ->]. by destruct (Hend pre).
Qed.

End TrimFacts.

(** ** The ownership check *)

Section Ownership.

Local Arguments String.append !_ _ / : simpl nomatch.

Lemma recordBelongsToZone_direct_child record zone :
  recordBelongsToZone record zone
  = direct_child (strings.Trim record ".") (strings.Trim zone ".").
Proof.
  unfold recordBelongsToZone, direct_child.
  destruct (String.eqb _ _); [done |].
  by destruct (strings.HasSuffix _ _).
Qed.

Lemma Contains_dot_false label :
  strings.Contains label "." = false
  <-> forall pre post, label <> pre +:+ "." +:+ post.
Proof.
  rewrite <- not_true_iff_false, Contains_spec. split.
  - intros H pre post ->. apply H. by exists pre, post.
  - intros H (pre & post & ->). by apply (H pre post).
Qed.

Lemma direct_child_rejects_apex zone : direct_child zone zone = false.
Proof. unfold direct_child. by rewrite String.eqb_refl. Qed.

Lemma direct_child_rejects_other record zone :
  (forall pre, record <> pre +:+ "." +:+ zone) ->
  direct_child record zone = false.
Proof.
  intros H. unfold direct_child.
  destruct (strings.HasSuffix record ("." +:+ zone)) eqn:E.
  - apply HasSuffix_spec in E as [pre ->]. by destruct (H pre).
  - by rewrite andb_false_r.
Qed.

Lemma direct_child_under pre zone :
  direct_child (pre +:+ "." +:+ zone) zone
  = negb (strings.Contains pre ".").
Proof.
  unfold direct_child.
  rewrite TrimSuffix_app, (proj2 (HasSuffix_spec _ _)) by eauto.
  rewrite (proj2 (String.eqb_neq _ _)); [done |].
  intros H%(f_equal String.length).
  rewrite string_length_app in H. simpl in H. lia.
Qed.

Lemma direct_child_label record zone :
  (forall t, record <> "." +:+ t) ->
  direct_child record zone = true
  <-> exists label, is_label label /\ record = label +:+ "." +:+ zone.
Proof.
  intros Hstart. split.
  - intros H.
    destruct (strings.HasSuffix record ("." +:+ zone)) eqn:E.
    + apply HasSuffix_spec in E as [pre ->].
      rewrite direct_child_under in H. apply negb_true_iff in H.
      exists pre. split; [split | done].
      * intros ->. by apply (Hstart zone).
      * by apply Contains_dot_false.
    + unfold direct_child in H. by rewrite E, andb_false_r in H.
  - intros (label & [_ Hdot] & ->).
    rewrite direct_child_under. apply negb_true_iff.
    by apply Contains_dot_false.
Qed.

(** C1. [recordBelongsToZone r z] holds exactly when, the dots around
    both names trimmed, [r] is one label deeper than [z]: a label that is
    not empty and has no dot, then a dot, then [z].  It is false for the
    apex, false when [r] does not end with a dot followed by [z], false
    when what is left of [r] before that suffix has a dot, and true
    otherwise; the four examples evaluate as the specification says. *)
Theorem recordBelongsToZone_one_label_deeper (r z : string) :
  (recordBelongsToZone r z = true <->
     exists label, is_label label /\
       strings.Trim r "." = label +:+ "." +:+ strings.Trim z ".")
  /\ (strings.Trim r "." = strings.Trim z "." ->
      recordBelongsToZone r z = false)
  /\ ((forall pre, strings.Trim r "." <> pre +:+ "." +:+ strings.Trim z ".") ->
      recordBelongsToZone r z = false)
  /\ (forall pre a b,
        strings.Trim r "." = pre +:+ "." +:+ strings.Trim z "." ->
        pre = a +:+ "." +:+ b ->
        recordBelongsToZone r z = false)
  /\ (forall pre,
        strings.Trim r "." <> strings.Trim z "." ->
        strings.Trim r "." = pre +:+ "." +:+ strings.Trim z "." ->
        (forall a b, pre <> a +:+ "." +:+ b) ->
        recordBelongsToZone r z = true)
  /\ recordBelongsToZone "foo.example.com." "example.com" = true
  /\ recordBelongsToZone "example.com" "example.com" = false
  /\ recordBelongsToZone "a.b.example.com" "example.com" = false
  /\ recordBelongsToZone "foo.other.com" "example.com" = false.
Proof.
  rewrite recordBelongsToZone_direct_child.
  destruct (Trim_spec r) as [_ [Hstart _]].
  repeat split; try reflexivity.
  - by apply direct_child_label.
  - by apply direct_child_label.
  - intros ->. apply direct_child_rejects_apex.
  - apply direct_child_rejects_other.
  - intros pre a b -> ->. rewrite direct_child_under.
    apply negb_false_iff, Contains_spec. by exists a, b.
  - intros pre _ -> Hdot. rewrite direct_child_under.
    by apply negb_true_iff, Contains_dot_false.
Qed.

(** Against C7 as stated: the stripping of a single trailing dot is not
    what the code does; two trailing dots, or a leading dot, are trimmed
    as well. *)
Lemma recordBelongsToZone_not_single_dot :
  (recordBelongsToZone "foo.example.com.." "example.com" = true
   /\ belongsToZone_spec "foo.example.com.." "example.com" = false)
  /\ (recordBelongsToZone ".foo.example.com" "example.com" = true
      /\ belongsToZone_spec ".foo.example.com" "example.com" = false)
  /\ ~ (forall r z, recordBelongsToZone r z = belongsToZone_spec r z).
Proof.
  repeat split; try reflexivity.
  intros H. by specialize (H "foo.example.com.." "example.com").
Qed.

(** C7, as the code has it.  [recordBelongsToZone] normalizes each
    argument by trimming every dot at its start and at its end, and
    nothing else, before the three checks: a name is its trimmed form
    between two runs of dots, the trimmed form neither starts nor ends
    with a dot, and whatever runs of dots surround a name that has none
    at its ends, the result is that of the checks on the bare names.  On
    a name without a leading dot and with at most one trailing dot this
    is the stripping of the single trailing dot. *)
Theorem recordBelongsToZone_trims_dots (r z : string) :
  recordBelongsToZone r z
    = direct_child (strings.Trim r ".") (strings.Trim z ".")
  /\ (exists n m, r = dots n +:+ strings.Trim r "." +:+ dots m)
  /\ dot_free_ends (strings.Trim r ".")
  /\ (exists n m, z = dots n +:+ strings.Trim z "." +:+ dots m)
  /\ dot_free_ends (strings.Trim z ".")
  /\ (forall n m n' m' r' z',
        dot_free_ends r' -> dot_free_ends z' ->
        recordBelongsToZone (dots n +:+ r' +:+ dots m)
                            (dots n' +:+ z' +:+ dots m')
        = direct_child r' z')
  /\ (forall r' z',
        dot_free_ends r' -> dot_free_ends z' ->
        recordBelongsToZone r' z' = belongsToZone_spec r' z'
        /\ recordBelongsToZone (r' +:+ ".") z' = belongsToZone_spec (r' +:+ ".") z'
        /\ recordBelongsToZone r' (z' +:+ ".") = belongsToZone_spec r' (z' +:+ ".")
        /\ recordBelongsToZone (r' +:+ ".") (z' +:+ ".")
           = belongsToZone_spec (r' +:+ ".") (z' +:+ ".")).
Proof.
  destruct (Trim_spec r) as [Hr Hr'], (Trim_spec z) as [Hz Hz'].
  split; [apply recordBelongsToZone_direct_child |].
  do 4 (split; [done |]).
  split.
  - intros n m n' m' r' z' Hr1 Hz1.
    by rewrite recordBelongsToZone_direct_child, !Trim_dots.
  - intros r' z' Hr1 Hz1.
    assert (Hid : forall t, dot_free_ends t ->
              strings.Trim t "." = t /\ strings.Trim (t +:+ ".") "." = t
              /\ strip_single_trailing_dot t = t
              /\ strip_single_trailing_dot (t +:+ ".") = t).
    { intros t Ht. repeat split.
      - pose proof (Trim_dots 0 0 t Ht) as H. simpl in H.
        by rewrite string_app_nil_r in H.
      - by apply (Trim_dots 0 1 t).
      - apply strip_single_trailing_dot_id, Ht.
      - apply TrimSuffix_app. }
    destruct (Hid r' Hr1) as (Hr2 & Hr3 & Hr4 & Hr5).
    destruct (Hid z' Hz1) as (Hz2 & Hz3 & Hz4 & Hz5).
    rewrite !recordBelongsToZone_direct_child. unfold belongsToZone_spec.
    by rewrite Hr2, Hr3, Hr4, Hr5, Hz2, Hz3, Hz4, Hz5.
Qed.

End Ownership.

(** ** The wait for propagation *)

Section Watcher.

Context {P : Type}.
Implicit Types (w : world P) (z : route53Zone P) (sched : list select_case).

Lemma world_eta w : mkWorld (stub w) (calls w) (timers w) (logs w) = w.
Proof. by destruct w. Qed.

Lemma polled_0 w changeID : polled w changeID 0 (stub w) = w.
Proof.
  unfold polled. simpl. rewrite !app_nil_r. apply world_eta.
Qed.

(** A poll that finds the change still being applied: the loop goes
    round. *)
Lemma waitLoop_still_applying z changeID sched w p1 out info status :
  GetChange (api z) (route53.GetChangeInput.mk (Some changeID)) (stub w)
    = (p1, (Some out, None)) ->
  route53.GetChangeOutput.ChangeInfo out = Some info ->
  route53.ChangeInfo.Status info = Some status ->
  status <> route53.ChangeStatusInsync ->
  waitLoop z changeID (tick_C :: sched) w
  = waitLoop z changeID sched (polled w changeID 1 p1).
Proof.
  intros Hget Hinfo Hstatus Hne. cbn [waitLoop]. run.
  rewrite Hget. simpl. rewrite Hinfo. simpl. rewrite Hstatus. simpl.
  by rewrite (proj2 (String.eqb_neq _ _) Hne).
Qed.

Lemma polled_polled w changeID n m p1 p2 :
  polled (polled w changeID n p1) changeID m p2
  = polled w changeID (n + m) p2.
Proof.
  unfold polled. simpl. by rewrite !replicate_add, !app_assoc.
Qed.

Lemma waitLoop_observes z changeID sts : forall w p' sched,
  observes (api z) changeID (stub w) sts p' ->
  Forall (fun status => status <> route53.ChangeStatusInsync) sts ->
  waitLoop z changeID (replicate (length sts) tick_C ++ sched) w
  = waitLoop z changeID sched (polled w changeID (length sts) p').
Proof.
  induction sts as [|status sts IH]; intros w p' sched Hobs Hsts.
  - inversion Hobs; subst. by rewrite polled_0.
  - inversion Hobs as [| ? p1 ? out info ? ? Hget Hinfo Hstatus Hrest];
      subst.
    apply Forall_cons in Hsts as [Hne Hsts].
    cbn [length replicate app].
    rewrite (waitLoop_still_applying _ _ _ _ _ _ _ _ Hget Hinfo Hstatus Hne).
    rewrite (IH (polled w changeID 1 p1) p' sched Hrest Hsts).
    by rewrite polled_polled.
Qed.

(** The loop leaves the timers alone and calls nothing but [GetChange]. *)
Lemma waitLoop_frame z changeID sched : forall w,
  timers (waitLoop z changeID sched w).1 = timers w
  /\ exists n, calls (waitLoop z changeID sched w).1
               = calls w ++ replicate n (poll_call changeID).
Proof.
  induction sched as [|[|] sched IH]; intros w.
  - simpl. split; [done |]. exists 0%nat. by rewrite app_nil_r.
  - cbn [waitLoop]. run.
    destruct (GetChange _ _ _) as [p1 [out [e|]]]; simpl.
    { split; [done |]. by exists 1%nat. }
    assert (Hone : exists n : nat,
      calls w ++ [CallGetChange (route53.GetChangeInput.mk (Some changeID))]
      = calls w ++ replicate n (poll_call changeID)) by by exists 1%nat.
    destruct out as [out|]; simpl; [| done].
    destruct (route53.GetChangeOutput.ChangeInfo out) as [info|]; simpl;
      [| done].
    destruct (route53.ChangeInfo.Status info) as [status|]; simpl; [| done].
    destruct (String.eqb status _); simpl; [done |].
    match goal with |- context [waitLoop z changeID sched ?w1] =>
      destruct (IH w1) as [Ht [n Hc]]; rewrite Ht, Hc end.
    simpl. split; [done |]. exists (S n). by rewrite <- app_assoc.
  - simpl. split; [done |]. exists 0%nat. by rewrite app_nil_r.
Qed.

(** [waitForChange] in one step: the two timers are created, the loop
    runs, and unless it blocks the deferred call stops both. *)
Lemma waitForChange_unfold z changeID sched w :
  waitForChange z changeID sched w
  = match
      waitLoop z changeID sched
        (mkWorld (stub w) (calls w)
           (timers w ++
              [ time.mkTimer defaultRoute53ZoneWaitWatchTimeout false true;
                time.mkTimer defaultRoute53ZoneWaitWatchInterval true true ])
           (logs w))
    with
    | (w1, Blocked) => (w1, Blocked)
    | (w1, r) => (timers_released (mkWorld (stub w1) (calls w1) (timers w)
                                     (logs w1)), r)
    end.
Proof.
  unfold waitForChange, defer, NewTimer, NewTicker, Stop. run.
  rewrite <- app_assoc, length_app. simpl.
  match goal with |- context [waitLoop z changeID sched ?w0] =>
    pose proof (waitLoop_frame z changeID sched w0) as [Ht _];
    destruct (waitLoop z changeID sched w0) as [w1 r] end.
  simpl in Ht.
  assert (Hstop :
    alter time.stop (length (timers w) + 1)%nat
      (alter time.stop (length (timers w)) (timers w1))
    = timers w ++ stopped_timers).
  { rewrite Ht.
    replace (length (timers w) + 1)%nat with (S (length (timers w))) by lia.
    generalize (timers w). intros l. induction l as [|t l IHl]; simpl.
    - done.
    - f_equal. apply IHl. }
  destruct r; unfold timers_released; simpl; by rewrite ?Hstop.
Qed.

Lemma waitLoop_returns z changeID sched : forall w,
  In timeout_C sched -> (waitLoop z changeID sched w).2 <> Blocked.
Proof.
  induction sched as [|[|] sched IH]; intros w Hin.
  - destruct Hin.
  - destruct Hin as [Hin | Hin]; [done |].
    cbn [waitLoop]. run.
    destruct (GetChange _ _ _) as [p1 [out [e|]]]; simpl; [done |].
    destruct out as [out|]; simpl; [| done].
    destruct (route53.GetChangeOutput.ChangeInfo out) as [info|]; simpl;
      [| done].
    destruct (route53.ChangeInfo.Status info) as [status|]; simpl; [| done].
    destruct (String.eqb status _); simpl; [done |].
    by apply IH.
  - done.
Qed.

(** The watcher returns (or panics) once the deadline fires: it cannot
    stay blocked on a schedule in which the timeout case is taken. *)
Lemma waitForChange_returns z changeID sched w :
  In timeout_C sched -> (waitForChange z changeID sched w).2 <> Blocked.
Proof.
  intros Hin. rewrite waitForChange_unfold.
  match goal with |- context [waitLoop z changeID sched ?w0] =>
    pose proof (waitLoop_returns z changeID sched w0 Hin) as H;
    destruct (waitLoop z changeID sched w0) as [w1 r] end.
  by destruct r.
Qed.

(** The watcher after [n] polls that found the change still being
    applied: what the rest of the schedule does, from the polled world. *)
Lemma waitForChange_observes z changeID w sts p' sched :
  observes (api z) changeID (stub w) sts p' ->
  Forall (fun status => status <> route53.ChangeStatusInsync) sts ->
  waitForChange z changeID (replicate (length sts) tick_C ++ sched) w
  = match
      waitLoop z changeID sched
        (polled (mkWorld (stub w) (calls w)
           (timers w ++
              [ time.mkTimer defaultRoute53ZoneWaitWatchTimeout false true;
                time.mkTimer defaultRoute53ZoneWaitWatchInterval true true ])
           (logs w)) changeID (length sts) p')
    with
    | (w1, Blocked) => (w1, Blocked)
    | (w1, r) => (timers_released (mkWorld (stub w1) (calls w1) (timers w)
                                     (logs w1)), r)
    end.
Proof.
  intros Hobs Hsts. rewrite waitForChange_unfold.
  match goal with |- context [waitLoop z changeID _ ?w0] =>
    by rewrite (waitLoop_observes z changeID sts w0 p' sched Hobs Hsts) end.
Qed.

(** C3. Whatever number of polls reported PENDING before: when the next
    poll, taken before the deadline fires, reports INSYNC, the watcher
    returns [nil] at that poll, and when the deadline fires instead, it
    returns [errRoute53WaitWatchTimedOut]. *)
Theorem waitForChange_insync_or_timeout z changeID w sts p' sched :
  observes (api z) changeID (stub w) sts p' ->
  Forall (fun status => status = route53.ChangeStatusPending) sts ->
  (forall p'',
     observes (api z) changeID p' [route53.ChangeStatusInsync] p'' ->
     waitForChange z changeID
       (replicate (length sts) tick_C ++ tick_C :: sched) w
     = (timers_released
          (polled_last (polled w changeID (length sts) p') changeID p''),
        Returned None))
  /\ waitForChange z changeID
       (replicate (length sts) tick_C ++ timeout_C :: sched) w
     = (timers_released (polled w changeID (length sts) p'),
        Returned (Some errRoute53WaitWatchTimedOut)).
Proof.
  intros Hobs Hpending.
  assert (Hsts : Forall (fun status => status <> route53.ChangeStatusInsync)
                   sts).
  { eapply Forall_impl; [exact Hpending |]. by intros status ->. }
  split.
  - intros p'' Hlast.
    inversion Hlast as [| ? p1 ? out info ? ? Hget Hinfo Hstatus Hnil]; subst.
    inversion Hnil; subst.
    rewrite (waitForChange_observes _ _ _ _ _ _ Hobs Hsts).
    cbn [waitLoop]. run. rewrite Hget. simpl. rewrite Hinfo. simpl.
    rewrite Hstatus. simpl. done.
  - by rewrite (waitForChange_observes _ _ _ _ _ _ Hobs Hsts).
Qed.

(** C5. At whatever poll of the loop [GetChange] returns an error, the
    watcher returns that very error at once: that poll is its last call
    to the provider, whatever the rest of the schedule holds. *)
Theorem waitForChange_poll_error z changeID w sts p' p'' out e sched :
  observes (api z) changeID (stub w) sts p' ->
  Forall (fun status => status <> route53.ChangeStatusInsync) sts ->
  GetChange (api z) (route53.GetChangeInput.mk (Some changeID)) p'
    = (p'', (out, Some e)) ->
  waitForChange z changeID
    (replicate (length sts) tick_C ++ tick_C :: sched) w
  = (timers_released
       (polled_last (polled w changeID (length sts) p') changeID p''),
     Returned (Some (providerError e))).
Proof.
  intros Hobs Hsts Hget.
  rewrite (waitForChange_observes _ _ _ _ _ _ Hobs Hsts).
  cbn [waitLoop]. run. by rewrite Hget.
Qed.

(** C9. Whenever the watcher exits, by returning [nil], the timeout
    error or a provider error, or by panicking, the deadline timer and
    the interval ticker it created have both been stopped, and no other
    timer has been touched. *)
Theorem waitForChange_releases_timers z changeID sched w :
  (waitForChange z changeID sched w).2 <> Blocked ->
  timers (waitForChange z changeID sched w).1 = timers w ++ stopped_timers.
Proof.
  rewrite waitForChange_unfold.
  destruct (waitLoop _ _ _ _) as [w1 r]. by destruct r.
Qed.

End Watcher.

Lemma waitForChange_insync_or_timeout_witness :
  waitForChange Stub.handle "C1" [tick_C; tick_C; tick_C; timeout_C]
    (Stub.start (Stub.example_com ["PENDING"; "PENDING"; "INSYNC"]))
  = (timers_released
       (polled_last
          (polled (Stub.start
                     (Stub.example_com ["PENDING"; "PENDING"; "INSYNC"]))
             "C1" 2 (Stub.example_com ["INSYNC"]))
          "C1" (Stub.example_com [])),
     Returned None)
  /\ waitForChange Stub.handle "C1" [tick_C; tick_C; timeout_C; tick_C]
       (Stub.start (Stub.example_com ["PENDING"; "PENDING"; "INSYNC"]))
     = (timers_released
          (polled (Stub.start
                     (Stub.example_com ["PENDING"; "PENDING"; "INSYNC"]))
             "C1" 2 (Stub.example_com ["INSYNC"])),
        Returned (Some errRoute53WaitWatchTimedOut)).
Proof.
  assert (Hobs : observes Stub.provider "C1"
            (Stub.example_com ["PENDING"; "PENDING"; "INSYNC"])
            ["PENDING"; "PENDING"] (Stub.example_com ["INSYNC"])).
  { repeat (eapply observes_cons; [reflexivity | reflexivity | reflexivity |]).
    apply observes_nil. }
  assert (Hpending : Forall (fun status => status = route53.ChangeStatusPending)
            ["PENDING"; "PENDING"]).
  { repeat constructor. }
  split.
  - apply (proj1 (waitForChange_insync_or_timeout Stub.handle "C1"
                    (Stub.start (Stub.example_com
                                   ["PENDING"; "PENDING"; "INSYNC"]))
                    ["PENDING"; "PENDING"] (Stub.example_com ["INSYNC"])
                    [timeout_C] Hobs Hpending)).
    eapply observes_cons; [reflexivity | reflexivity | reflexivity |].
    apply observes_nil.
  - apply (proj2 (waitForChange_insync_or_timeout Stub.handle "C1"
                    (Stub.start (Stub.example_com
                                   ["PENDING"; "PENDING"; "INSYNC"]))
                    ["PENDING"; "PENDING"] (Stub.example_com ["INSYNC"])
                    [tick_C] Hobs Hpending)).
Defined.

Lemma waitForChange_poll_error_witness :
  waitForChange Stub.handle "C1" [tick_C; tick_C; tick_C; tick_C]
    (Stub.start (Stub.example_com ["PENDING"]))
  = (timers_released
       (polled_last
          (polled (Stub.start (Stub.example_com ["PENDING"])) "C1" 1
             (Stub.example_com []))
          "C1" (Stub.example_com [])),
     Returned (Some (providerError Stub.exhausted))).
Proof.
  apply (waitForChange_poll_error Stub.handle "C1"
           (Stub.start (Stub.example_com ["PENDING"])) ["PENDING"]
           (Stub.example_com []) (Stub.example_com []) None Stub.exhausted
           [tick_C; tick_C]).
  - eapply observes_cons; [reflexivity | reflexivity | reflexivity |].
    apply observes_nil.
  - repeat constructor. discriminate.
  - reflexivity.
Defined.

Lemma waitForChange_releases_timers_witness :
  (* success *)
  timers (waitForChange Stub.handle "C1" [tick_C; tick_C; timeout_C]
            (Stub.start (Stub.example_com ["PENDING"; "INSYNC"]))).1
    = stopped_timers
  (* timeout *)
  /\ timers (waitForChange Stub.handle "C1" [tick_C; timeout_C]
               (Stub.start (Stub.example_com ["PENDING"; "INSYNC"]))).1
     = stopped_timers
  (* provider error *)
  /\ timers (waitForChange Stub.handle "C1" [tick_C; tick_C; timeout_C]
               (Stub.start (Stub.example_com ["PENDING"]))).1
     = stopped_timers.
Proof.
  split; [| split].
  - apply (waitForChange_releases_timers Stub.handle "C1"
             [tick_C; tick_C; timeout_C]
             (Stub.start (Stub.example_com ["PENDING"; "INSYNC"]))).
    discriminate.
  - apply (waitForChange_releases_timers Stub.handle "C1"
             [tick_C; timeout_C]
             (Stub.start (Stub.example_com ["PENDING"; "INSYNC"]))).
    discriminate.
  - apply (waitForChange_releases_timers Stub.handle "C1"
             [tick_C; tick_C; timeout_C]
             (Stub.start (Stub.example_com ["PENDING"]))).
    discriminate.
Defined.


(** ** Zone resolution *)

Section Resolver.

Context {P : Type}.
Implicit Types (w : world P) (z : route53Zone P).

(** The copy loop fills the slots from [length pre] on, in order, and
    panics on a [nil] name server. *)
Lemma copyNameServers_Some (nss : list string) : forall (pre : list string) w,
  copyNameServers (length pre) (map Some nss)
    (pre ++ replicate (length (map Some nss)) "") w
  = (w, Returned (pre ++ nss)).
Proof.
  induction nss as [|v nss IH]; intros pre w; simpl.
  - done.
  - run. rewrite insert_app_r_alt by lia.
    rewrite Nat.sub_diag. simpl.
    specialize (IH (pre ++ [v]) w). rewrite length_app in IH. simpl in IH.
    replace (length pre + 1)%nat with (S (length pre)) in IH by lia.
    by rewrite <- !app_assoc in IH.
Qed.

Lemma copyNameServers_None (nameServers : list (option string)) :
  forall i dst w,
  (forall nss, nameServers <> map Some nss) ->
  exists w', copyNameServers i nameServers dst w = (w', Panicked).
Proof.
  induction nameServers as [|[v|] rest IH]; intros i dst w Hnone.
  - by destruct (Hnone []).
  - simpl. run. apply IH. intros nss ->. by apply (Hnone (v :: nss)).
  - simpl. run. by exists w.
Qed.

Lemma all_Some_dec (l : list (option string)) :
  (exists nss, l = map Some nss) \/ (forall nss, l <> map Some nss).
Proof.
  induction l as [|o l IH].
  - left. by exists [].
  - destruct o as [v|].
    + destruct IH as [[nss ->] | IH].
      * left. by exists (v :: nss).
      * right. intros [|v' nss]; [done |]. intros [= _ H].
        by apply (IH nss).
    + right. by intros [|v' nss].
Qed.

(** [setZone] takes one of the paths of [resolution]. *)
Lemma setZone_resolution z name w :
  resolution z name w (setZone z name w).1 (setZone z name w).2.
Proof.
  unfold setZone. run.
  destruct (ListHostedZonesByName _ _ _) as [p1 [out [e|]]] eqn:Hlist; simpl.
  { by eapply resolution_list_error. }
  destruct out as [out|]; simpl; [| apply resolution_panic].
  destruct (route53.ListHostedZonesByNameOutput.HostedZones out)
    as [|[first|] rest] eqn:Hzones; simpl.
  { by eapply resolution_no_zone. }
  2: { apply resolution_panic. }
  destruct (route53.HostedZone.Name first) as [firstName|] eqn:Hname; simpl;
    [| apply resolution_panic].
  destruct (String.eqb_spec firstName name) as [-> | Hne]; simpl.
  2: { by eapply resolution_other_zone. }
  destruct (GetHostedZone _ _ _) as [p2 [zone [e|]]] eqn:Hget; simpl;
    rewrite <- app_assoc; simpl.
  { by eapply resolution_get_error. }
  destruct zone as [zone|]; simpl; [| apply resolution_panic].
  destruct (route53.GetHostedZoneOutput.HostedZone zone) as [hostedZone|]
    eqn:Hzone; simpl; [| apply resolution_panic].
  destruct (route53.HostedZone.Id hostedZone) as [id|] eqn:Hid; simpl;
    [| apply resolution_panic].
  destruct (route53.GetHostedZoneOutput.DelegationSet zone)
    as [delegationSet|] eqn:Hset; simpl; [| apply resolution_panic].
  destruct (all_Some_dec (route53.DelegationSet.NameServers delegationSet))
    as [[nss Hnss] | Hnone].
  - rewrite Hnss. rewrite (copyNameServers_Some nss []). simpl.
    by eapply resolution_found.
  - match goal with |- context [copyNameServers 0 ?l ?dst ?w0] =>
      destruct (copyNameServers_None l 0%nat dst w0 Hnone) as [w' ->] end.
    apply resolution_panic.
Qed.

(** [newRoute53Zone] hands out the zone [setZone] has filled, or [nil]
    with the error of [setZone]. *)
Lemma newRoute53Zone_unfold name (a : Route53API P) w :
  newRoute53Zone name a w
  = match setZone (mkZone a "" "" []) name w with
    | (w', Returned (_, Some e)) => (w', Returned (None, Some e))
    | (w', Returned (z', None)) => (w', Returned (Some z', None))
    | (w', Panicked) => (w', Panicked)
    | (w', Blocked) => (w', Blocked)
    end.
Proof.
  unfold newRoute53Zone. unfold mbind at 1, M_bind at 1.
  destruct (setZone _ _ _) as [w' [[z' [e|]]| |]]; done.
Qed.

(** The failing paths of [setZone], from the answers of the provider. *)
Lemma setZone_list_error z name w p1 out e :
  ListHostedZonesByName (api z)
    (route53.ListHostedZonesByNameInput.mk (Some name) (Some "1")) (stub w)
    = (p1, (out, Some e)) ->
  setZone z name w = (listed w name p1, Returned (z, Some (providerError e))).
Proof. intros Hlist. unfold setZone. run. by rewrite Hlist. Qed.

Lemma setZone_no_zone z name w p1 out :
  ListHostedZonesByName (api z)
    (route53.ListHostedZonesByNameInput.mk (Some name) (Some "1")) (stub w)
    = (p1, (Some out, None)) ->
  route53.ListHostedZonesByNameOutput.HostedZones out = [] ->
  setZone z name w
  = (listed w name p1, Returned (z, Some errRoute53NoHostedZoneFound)).
Proof.
  intros Hlist Hzones. unfold setZone. run. rewrite Hlist. simpl.
  by rewrite Hzones.
Qed.

Lemma setZone_other_zone z name w p1 out first rest firstName :
  ListHostedZonesByName (api z)
    (route53.ListHostedZonesByNameInput.mk (Some name) (Some "1")) (stub w)
    = (p1, (Some out, None)) ->
  route53.ListHostedZonesByNameOutput.HostedZones out = Some first :: rest ->
  route53.HostedZone.Name first = Some firstName ->
  firstName <> name ->
  setZone z name w
  = (listed w name p1, Returned (z, Some errRoute53NoHostedZoneFound)).
Proof.
  intros Hlist Hzones Hname Hne. unfold setZone. run. rewrite Hlist. simpl.
  rewrite Hzones. simpl. rewrite Hname. simpl.
  by rewrite (proj2 (String.eqb_neq _ _) Hne).
Qed.

Lemma setZone_get_error z name w p1 out first rest p2 zone e :
  ListHostedZonesByName (api z)
    (route53.ListHostedZonesByNameInput.mk (Some name) (Some "1")) (stub w)
    = (p1, (Some out, None)) ->
  route53.ListHostedZonesByNameOutput.HostedZones out = Some first :: rest ->
  route53.HostedZone.Name first = Some name ->
  GetHostedZone (api z)
    (route53.GetHostedZoneInput.mk (route53.HostedZone.Id first)) p1
    = (p2, (zone, Some e)) ->
  setZone z name w
  = (fetched w name (route53.HostedZone.Id first) p2,
     Returned (z, Some (providerError e))).
Proof.
  intros Hlist Hzones Hname Hget. unfold setZone. run. rewrite Hlist. simpl.
  rewrite Hzones. simpl. rewrite Hname. simpl. rewrite String.eqb_refl.
  simpl. rewrite Hget. simpl. by rewrite <- app_assoc.
Qed.

(** No zone, or another zone first: resolution fails without fetching
    any zone. *)
Lemma newRoute53Zone_no_match name (a : Route53API P) w p1 out :
  ListHostedZonesByName a
    (route53.ListHostedZonesByNameInput.mk (Some name) (Some "1")) (stub w)
    = (p1, (Some out, None)) ->
  (route53.ListHostedZonesByNameOutput.HostedZones out = []
   \/ exists first rest firstName,
        route53.ListHostedZonesByNameOutput.HostedZones out
          = Some first :: rest
        /\ route53.HostedZone.Name first = Some firstName
        /\ firstName <> name) ->
  newRoute53Zone name a w
  = (listed w name p1, Returned (None, Some errRoute53NoHostedZoneFound)).
Proof.
  intros Hlist Hzones. rewrite newRoute53Zone_unfold.
  destruct Hzones as [Hzones | (first & rest & firstName & Hzones & Hn & Hne)].
  - by rewrite (setZone_no_zone (mkZone a "" "" []) _ _ _ _ Hlist Hzones).
  - by rewrite (setZone_other_zone (mkZone a "" "" []) _ _ _ _ _ _ _
                  Hlist Hzones Hn Hne).
Qed.

(** C4, as the code has it.  Zone resolution fails with
    [errRoute53NoHostedZoneFound] exactly when [ListHostedZonesByName]
    answers without error and either lists no zone or lists a first zone
    whose name is not, byte for byte, the requested name; no name is
    normalized, so a name that only extends, shortens or otherwise
    differs from the requested one is rejected.  [GetHostedZone] is then
    not called. *)
Theorem newRoute53Zone_NoHostedZoneFound name (a : Route53API P) w :
  ((newRoute53Zone name a w).2
     = Returned (None, Some errRoute53NoHostedZoneFound)
   <-> exists p1 out,
         ListHostedZonesByName a
           (route53.ListHostedZonesByNameInput.mk (Some name) (Some "1"))
           (stub w)
           = (p1, (Some out, None))
         /\ (route53.ListHostedZonesByNameOutput.HostedZones out = []
             \/ exists first rest firstName,
                  route53.ListHostedZonesByNameOutput.HostedZones out
                    = Some first :: rest
                  /\ route53.HostedZone.Name first = Some firstName
                  /\ firstName <> name))
  /\ (forall p1 out,
         ListHostedZonesByName a
           (route53.ListHostedZonesByNameInput.mk (Some name) (Some "1"))
           (stub w)
           = (p1, (Some out, None)) ->
         (route53.ListHostedZonesByNameOutput.HostedZones out = []
          \/ exists first rest firstName,
               route53.ListHostedZonesByNameOutput.HostedZones out
                 = Some first :: rest
               /\ route53.HostedZone.Name first = Some firstName
               /\ firstName <> name) ->
         newRoute53Zone name a w
         = (listed w name p1,
            Returned (None, Some errRoute53NoHostedZoneFound))).
Proof.
  split; [split |]; [| | apply newRoute53Zone_no_match].
  - rewrite newRoute53Zone_unfold.
    pose proof (setZone_resolution (mkZone a "" "" []) name w) as Hres.
    destruct (setZone _ _ _) as [w' r]. simpl in Hres.
    inversion Hres; subst; simpl; try done.
    + intros _. eexists _, _. split; [eassumption |]. by left.
    + intros _. eexists _, _. split; [eassumption |]. right.
      by eexists _, _, _.
  - intros (p1 & out & Hlist & Hzones).
    by rewrite (newRoute53Zone_no_match name a w p1 out).
Qed.

(** C8, as the code has it.  [newRoute53Zone] returns either [nil] with
    an error or a zone with no error.  The fields of a zone it returns
    are what the provider answered: [Name] is the requested name, [ID]
    the identifier of the zone [GetHostedZone] returned and
    [Nameservers] the name servers of the returned delegation set, in
    order.  Nothing checks that they are not empty: they are exactly
    when the provider's answer is. *)
Theorem newRoute53Zone_handle name (a : Route53API P) w w' zp e :
  newRoute53Zone name a w = (w', Returned (zp, e)) ->
  (zp = None /\ e <> None)
  \/ (e = None
      /\ exists p1 out first rest p2 zone hostedZone id delegationSet nss,
           ListHostedZonesByName a
             (route53.ListHostedZonesByNameInput.mk (Some name) (Some "1"))
             (stub w)
             = (p1, (Some out, None))
           /\ route53.ListHostedZonesByNameOutput.HostedZones out
                = Some first :: rest
           /\ route53.HostedZone.Name first = Some name
           /\ GetHostedZone a
                (route53.GetHostedZoneInput.mk (route53.HostedZone.Id first))
                p1
                = (p2, (Some zone, None))
           /\ route53.GetHostedZoneOutput.HostedZone zone = Some hostedZone
           /\ route53.HostedZone.Id hostedZone = Some id
           /\ route53.GetHostedZoneOutput.DelegationSet zone
                = Some delegationSet
           /\ route53.DelegationSet.NameServers delegationSet = map Some nss
           /\ zp = Some (mkZone a name id nss)
           /\ (id <> "" <-> ID (mkZone a name id nss) <> "")
           /\ (route53.DelegationSet.NameServers delegationSet <> []
               <-> Nameservers (mkZone a name id nss) <> [])).
Proof.
  rewrite newRoute53Zone_unfold.
  pose proof (setZone_resolution (mkZone a "" "" []) name w) as Hres.
  destruct (setZone _ _ _) as [w1 r]. simpl in Hres.
  inversion Hres; subst; simpl; intros [= <- <- <-]; try (by left).
  right. split; [done |].
  eexists _, _, _, _, _, _, _, _, _, _.
  repeat (split; [eassumption || reflexivity |]).
  simpl.
  match goal with H : route53.DelegationSet.NameServers _ = _ |- _ =>
    rewrite H end.
  by destruct nss.
Qed.

(** C10. A failed resolution leaves the handle as it was: on every path
    on which [setZone] returns an error (the listing fails, no zone or
    another zone is listed, fetching the zone fails), [Name], [ID] and
    [Nameservers] are unchanged, and [newRoute53Zone] returns [nil] with
    that error. *)
Theorem setZone_failure_atomic z name w :
  (forall w' z' e,
     setZone z name w = (w', Returned (z', Some e)) ->
     z' = z
     /\ Name z' = Name z /\ ID z' = ID z /\ Nameservers z' = Nameservers z)
  /\ (forall w' zp e,
        newRoute53Zone name (api z) w = (w', Returned (zp, Some e)) ->
        zp = None)
  /\ (forall p1 out e,
        ListHostedZonesByName (api z)
          (route53.ListHostedZonesByNameInput.mk (Some name) (Some "1"))
          (stub w)
          = (p1, (out, Some e)) ->
        setZone z name w
        = (listed w name p1, Returned (z, Some (providerError e)))
        /\ newRoute53Zone name (api z) w
           = (listed w name p1, Returned (None, Some (providerError e))))
  /\ (forall p1 out,
        ListHostedZonesByName (api z)
          (route53.ListHostedZonesByNameInput.mk (Some name) (Some "1"))
          (stub w)
          = (p1, (Some out, None)) ->
        (route53.ListHostedZonesByNameOutput.HostedZones out = []
         \/ exists first rest firstName,
              route53.ListHostedZonesByNameOutput.HostedZones out
                = Some first :: rest
              /\ route53.HostedZone.Name first = Some firstName
              /\ firstName <> name) ->
        setZone z name w
        = (listed w name p1, Returned (z, Some errRoute53NoHostedZoneFound))
        /\ newRoute53Zone name (api z) w
           = (listed w name p1,
              Returned (None, Some errRoute53NoHostedZoneFound)))
  /\ (forall p1 out first rest p2 zone e,
        ListHostedZonesByName (api z)
          (route53.ListHostedZonesByNameInput.mk (Some name) (Some "1"))
          (stub w)
          = (p1, (Some out, None)) ->
        route53.ListHostedZonesByNameOutput.HostedZones out
          = Some first :: rest ->
        route53.HostedZone.Name first = Some name ->
        GetHostedZone (api z)
          (route53.GetHostedZoneInput.mk (route53.HostedZone.Id first)) p1
          = (p2, (zone, Some e)) ->
        setZone z name w
        = (fetched w name (route53.HostedZone.Id first) p2,
           Returned (z, Some (providerError e)))
        /\ newRoute53Zone name (api z) w
           = (fetched w name (route53.HostedZone.Id first) p2,
              Returned (None, Some (providerError e)))).
Proof.
  split; [| split; [| split; [| split]]].
  - intros w' z' e Hrun.
    pose proof (setZone_resolution z name w) as Hres.
    rewrite Hrun in Hres. simpl in Hres.
    by inversion Hres; subst.
  - intros w' zp e. rewrite newRoute53Zone_unfold.
    destruct (setZone _ _ _) as [w1 [[z1 [e1|]]| |]]; by intros [= <- <- <-].
  - intros p1 out e Hlist. split; [by eapply setZone_list_error |].
    rewrite newRoute53Zone_unfold.
    by rewrite (setZone_list_error (mkZone (api z) "" "" []) _ _ _ _ _ Hlist).
  - intros p1 out Hlist Hzones. split.
    + destruct Hzones as [Hz | (first & rest & firstName & Hz & Hn & Hne)].
      * by eapply setZone_no_zone.
      * by eapply setZone_other_zone.
    + by apply (newRoute53Zone_no_match name (api z) w p1 out).
  - intros p1 out first rest p2 zone e Hlist Hzones Hname Hget.
    split; [by eapply setZone_get_error |].
    rewrite newRoute53Zone_unfold.
    by rewrite (setZone_get_error (mkZone (api z) "" "" []) _ _ _ _ _ _ _ _ _
                  Hlist Hzones Hname Hget).
Qed.

End Resolver.

(** Against C4 as stated: the requested name [example.com] and the
    listed name [example.com.] are the same name once normalized, and
    resolution fails all the same. *)
Lemma newRoute53Zone_trailing_dot_mismatch :
  strip_single_trailing_dot "example.com."
    = strip_single_trailing_dot "example.com"
  /\ strings.Trim "example.com." "." = strings.Trim "example.com" "."
  /\ ListHostedZonesByName Stub.provider
       (route53.ListHostedZonesByNameInput.mk (Some "example.com") (Some "1"))
       (Stub.example_com [])
     = (Stub.example_com [], Stub.zones ["example.com."])
  /\ (newRoute53Zone "example.com" Stub.provider
        (Stub.start (Stub.example_com []))).2
     = Returned (None, Some errRoute53NoHostedZoneFound).
Proof. split; [| split; [| split]]; reflexivity. Qed.

(** Against C8 as stated: when the provider answers with an empty
    identifier and no name server, resolution succeeds and hands out a
    zone with both fields empty. *)
Lemma newRoute53Zone_empty_fields :
  (newRoute53Zone "example.com." Stub.provider
     (Stub.start
        (Stub.mkScript (Stub.zones ["example.com."]) (Stub.zone "" [])
           Stub.submitted []))).2
  = Returned (Some (mkZone Stub.provider "example.com." "" []), None)
  /\ ID (mkZone Stub.provider "example.com." "" []) = ""
  /\ Nameservers (mkZone Stub.provider "example.com." "" []) = [].
Proof. split; [| split]; reflexivity. Qed.

Lemma newRoute53Zone_handle_witness :
  newRoute53Zone "example.com." Stub.provider
    (Stub.start (Stub.example_com []))
  = (found (Stub.start (Stub.example_com [])) "example.com."
       (Some "/hostedzone/Z1") (Stub.example_com []) "/hostedzone/Z1",
     Returned (Some Stub.handle, None))
  /\ ((Some Stub.handle = None /\ @None err <> None)
      \/ (@None err = None
          /\ exists p1 out first rest p2 zone hostedZone id delegationSet nss,
               ListHostedZonesByName Stub.provider
                 (route53.ListHostedZonesByNameInput.mk (Some "example.com.")
                    (Some "1"))
                 (Stub.example_com [])
                 = (p1, (Some out, None))
               /\ route53.ListHostedZonesByNameOutput.HostedZones out
                    = Some first :: rest
               /\ route53.HostedZone.Name first = Some "example.com."
               /\ GetHostedZone Stub.provider
                    (route53.GetHostedZoneInput.mk
                       (route53.HostedZone.Id first)) p1
                    = (p2, (Some zone, None))
               /\ route53.GetHostedZoneOutput.HostedZone zone
                    = Some hostedZone
               /\ route53.HostedZone.Id hostedZone = Some id
               /\ route53.GetHostedZoneOutput.DelegationSet zone
                    = Some delegationSet
               /\ route53.DelegationSet.NameServers delegationSet
                    = map Some nss
               /\ Some Stub.handle
                    = Some (mkZone Stub.provider "example.com." id nss)
               /\ (id <> ""
                   <-> ID (mkZone Stub.provider "example.com." id nss) <> "")
               /\ (route53.DelegationSet.NameServers delegationSet <> []
                   <-> Nameservers
                         (mkZone Stub.provider "example.com." id nss) <> [])
         )).
Proof.
  split; [reflexivity |].
  apply (newRoute53Zone_handle "example.com." Stub.provider
           (Stub.start (Stub.example_com []))
           (found (Stub.start (Stub.example_com [])) "example.com."
              (Some "/hostedzone/Z1") (Stub.example_com []) "/hostedzone/Z1")
           (Some Stub.handle) None).
  reflexivity.
Defined.

Lemma setZone_failure_atomic_witness :
  (* the listed zone is another one *)
  setZone Stub.handle "example.org." (Stub.start (Stub.example_com []))
  = (listed (Stub.start (Stub.example_com [])) "example.org."
       (Stub.example_com []),
     Returned (Stub.handle, Some errRoute53NoHostedZoneFound))
  /\ newRoute53Zone "example.org." Stub.provider
       (Stub.start (Stub.example_com []))
     = (listed (Stub.start (Stub.example_com [])) "example.org."
          (Stub.example_com []),
        Returned (None, Some errRoute53NoHostedZoneFound)).
Proof.
  apply (proj1 (proj2 (proj2 (proj2
           (setZone_failure_atomic Stub.handle "example.org."
              (Stub.start (Stub.example_com []))))))
           (Stub.example_com [])
           (route53.ListHostedZonesByNameOutput.mk
              [Some (route53.HostedZone.mk (Some "/hostedzone/Z1")
                       (Some "example.com."))])).
  - reflexivity.
  - right. eexists _, _, _. split; [reflexivity |]. split; [reflexivity |].
    discriminate.
Defined.

(** ** Change submission *)

Section Submitter.

Context {P : Type}.
Implicit Types (w : world P) (z : route53Zone P) (sched : list select_case).

(** The watcher calls nothing but [GetChange]. *)
Lemma waitForChange_calls z changeID sched w :
  exists n, calls (waitForChange z changeID sched w).1
            = calls w ++ replicate n (poll_call changeID).
Proof.
  rewrite waitForChange_unfold.
  match goal with |- context [waitLoop z changeID sched ?w0] =>
    pose proof (waitLoop_frame z changeID sched w0) as [_ [n Hn]];
    destruct (waitLoop z changeID sched w0) as [w1 r] end.
  exists n. by destruct r.
Qed.

Lemma Forall_is_poll n changeID :
  Forall is_poll (replicate n (poll_call changeID)).
Proof. induction n; by constructor. Qed.

(** Once the check has passed, [changeCname] submits one change, built
    from its arguments, and then only polls. *)
Lemma changeCname_calls z action recordName value sched w :
  recordBelongsToZone recordName (Name z) = true ->
  exists polls,
    Forall is_poll polls
    /\ calls (changeCname z action recordName value sched w).1
       = calls w ++
         CallChangeResourceRecordSets
           (route53.ChangeResourceRecordSetsInput.mk
              (Some (route53.ChangeBatch.mk
                 [Some (route53.Change.mk (Some action)
                    (Some (if String.eqb action route53.ChangeActionDelete
                           then route53.ResourceRecordSet.mk
                                  (Some recordName) None None []
                           else route53.ResourceRecordSet.mk
                                  (Some recordName) (Some 60) (Some "CNAME")
                                  [Some (route53.ResourceRecord.mk
                                           (Some value))])))]
                 (Some "Managed by ingress-route53-registrator")))
              (Some (ID z)))
         :: polls.
Proof.
  intros Hin. unfold changeCname. rewrite Hin. simpl. run.
  destruct (ChangeResourceRecordSets _ _ _) as [p1 [resp [e|]]]; simpl.
  { exists []. split; [constructor |]. done. }
  destruct resp as [resp|]; simpl; [| by exists []].
  destruct (route53.ChangeResourceRecordSetsOutput.ChangeInfo resp)
    as [info|]; simpl; [| by exists []].
  destruct (route53.ChangeInfo.Id info) as [id|]; simpl; [| by exists []].
  match goal with |- context [waitForChange z id sched ?w1] =>
    destruct (waitForChange_calls z id sched w1) as [n Hn];
    destruct (waitForChange z id sched w1) as [w2 r] end.
  simpl in *. exists (replicate n (poll_call id)).
  split; [apply Forall_is_poll |].
  rewrite Hn. by rewrite <- app_assoc.
Qed.

(** C2. When the ownership check rejects the record name for the name of
    the zone, [UpsertCname] and [DeleteCname] (and [changeCname] for any
    action) return [errRoute53RecordNotInZone] and leave the world as it
    was: the provider has not been called. *)
Theorem changeCname_rejects_without_call z recordName value sched w :
  recordBelongsToZone recordName (Name z) = false ->
  UpsertCname z recordName value sched w
    = (w, Returned (Some errRoute53RecordNotInZone))
  /\ DeleteCname z recordName sched w
     = (w, Returned (Some errRoute53RecordNotInZone))
  /\ (forall action,
        changeCname z action recordName value sched w
        = (w, Returned (Some errRoute53RecordNotInZone)))
  /\ calls (UpsertCname z recordName value sched w).1 = calls w
  /\ calls (DeleteCname z recordName sched w).1 = calls w.
Proof.
  intros Hout. unfold UpsertCname, DeleteCname, changeCname.
  rewrite Hout. simpl. by repeat split.
Qed.

(** C6. When the ownership check passes, the first call to the provider
    is the one mutation, scoped to the identifier of the zone, with the
    single change and the fixed comment; every later call is a poll.
    For a delete the record set carries the record name and nothing
    else; for an upsert it carries the record name, the TTL 60, the type
    CNAME and the one value. *)
Theorem changeCname_payload z recordName value sched w :
  recordBelongsToZone recordName (Name z) = true ->
  (exists polls,
     Forall is_poll polls
     /\ calls (DeleteCname z recordName sched w).1
        = calls w ++
          CallChangeResourceRecordSets
            (route53.ChangeResourceRecordSetsInput.mk
               (Some (route53.ChangeBatch.mk
                  [Some (route53.Change.mk (Some route53.ChangeActionDelete)
                     (Some (route53.ResourceRecordSet.mk
                              (Some recordName) None None [])))]
                  (Some "Managed by ingress-route53-registrator")))
               (Some (ID z)))
          :: polls)
  /\ (exists polls,
        Forall is_poll polls
        /\ calls (UpsertCname z recordName value sched w).1
           = calls w ++
             CallChangeResourceRecordSets
               (route53.ChangeResourceRecordSetsInput.mk
                  (Some (route53.ChangeBatch.mk
                     [Some (route53.Change.mk
                        (Some route53.ChangeActionUpsert)
                        (Some (route53.ResourceRecordSet.mk
                                 (Some recordName) (Some 60) (Some "CNAME")
                                 [Some (route53.ResourceRecord.mk
                                          (Some value))])))]
                     (Some "Managed by ingress-route53-registrator")))
                  (Some (ID z)))
             :: polls).
Proof.
  intros Hin. split.
  - apply (changeCname_calls z route53.ChangeActionDelete recordName ""
             sched w Hin).
  - apply (changeCname_calls z route53.ChangeActionUpsert recordName value
             sched w Hin).
Qed.

End Submitter.

Lemma changeCname_rejects_without_call_witness :
  recordBelongsToZone "foo.other.com" (Name Stub.handle) = false
  /\ UpsertCname Stub.handle "foo.other.com" "target.example.net"
       [tick_C; timeout_C] (Stub.start (Stub.example_com ["INSYNC"]))
     = (Stub.start (Stub.example_com ["INSYNC"]),
        Returned (Some errRoute53RecordNotInZone))
  /\ DeleteCname Stub.handle "foo.other.com"
       [tick_C; timeout_C] (Stub.start (Stub.example_com ["INSYNC"]))
     = (Stub.start (Stub.example_com ["INSYNC"]),
        Returned (Some errRoute53RecordNotInZone)).
Proof.
  split; [reflexivity |].
  pose proof (changeCname_rejects_without_call Stub.handle "foo.other.com"
                "target.example.net" [tick_C; timeout_C]
                (Stub.start (Stub.example_com ["INSYNC"])) eq_refl)
    as (Hupsert & Hdelete & _).
  split; [exact Hupsert | exact Hdelete].
Defined.

Lemma changeCname_payload_witness :
  recordBelongsToZone "foo.example.com" (Name Stub.handle) = true
  /\ (exists polls,
        Forall is_poll polls
        /\ calls (UpsertCname Stub.handle "foo.example.com"
                    "target.example.net" [tick_C; tick_C; timeout_C]
                    (Stub.start (Stub.example_com ["PENDING"; "INSYNC"]))).1
           = [] ++
             CallChangeResourceRecordSets
               (route53.ChangeResourceRecordSetsInput.mk
                  (Some (route53.ChangeBatch.mk
                     [Some (route53.Change.mk (Some "UPSERT")
                        (Some (route53.ResourceRecordSet.mk
                                 (Some "foo.example.com") (Some 60)
                                 (Some "CNAME")
                                 [Some (route53.ResourceRecord.mk
                                          (Some "target.example.net"))])))]
                     (Some "Managed by ingress-route53-registrator")))
                  (Some "/hostedzone/Z1"))
             :: polls).
Proof.
  split; [reflexivity |].
  apply (proj2 (changeCname_payload Stub.handle "foo.example.com"
                  "target.example.net" [tick_C; tick_C; timeout_C]
                  (Stub.start (Stub.example_com ["PENDING"; "INSYNC"]))
                  eq_refl)).
Defined.

(** * Further properties *)

(** ** The ownership check as a relation between names *)

Section OwnershipRelation.

Local Arguments String.append !_ _ / : simpl nomatch.
Implicit Types r z s t label : string.

Lemma dots_add n m : dots (n + m) = dots n +:+ dots m.
Proof. induction n as [|n IH]; simpl; [done | by rewrite IH]. Qed.

Lemma Trim_outer_dots s n m :
  strings.Trim (dots n +:+ s +:+ dots m) "." = strings.Trim s ".".
Proof.
  destruct (Trim_spec s) as [(a & b & Hs) Hends].
  rewrite Hs at 1.
  rewrite !string_app_assoc, <- (string_app_assoc (dots n)), <- dots_add.
  rewrite <- dots_add. by apply Trim_dots.
Qed.

Lemma recordBelongsToZone_label r z :
  recordBelongsToZone r z = true
  <-> exists label, is_label label
        /\ strings.Trim r "." = label +:+ "." +:+ strings.Trim z ".".
Proof.
  rewrite recordBelongsToZone_direct_child.
  apply direct_child_label. by destruct (Trim_spec r) as [_ [Hstart _]].
Qed.

Lemma label_dot_split label label' t t' :
  is_label label -> is_label label' ->
  label +:+ "." +:+ t = label' +:+ "." +:+ t' ->
  label = label' /\ t = t'.
Proof.
  intros [_ Hl] [_ Hl']. revert label' Hl'.
  induction label as [|a l IH]; intros [|b l'] Hl'; simpl.
  - by intros [= ->].
  - intros [= <- _]. by destruct (Hl' "" l').
  - intros [= -> _]. by destruct (Hl "" l).
  - intros [= -> H].
    destruct (IH (fun pre post E => Hl (String b pre) post
                                      (f_equal (String b) E))
                l'
                (fun pre post E => Hl' (String b pre) post
                                      (f_equal (String b) E))
                H) as [-> ->].
    done.
Qed.

(** X1. Dots around either name do not matter: whatever runs of dots are
    put before and after the record name and the zone name, the answer
    of [recordBelongsToZone] is the same. *)
Theorem recordBelongsToZone_ignores_outer_dots r z n m n' m' :
  recordBelongsToZone (dots n +:+ r +:+ dots m) (dots n' +:+ z +:+ dots m')
  = recordBelongsToZone r z.
Proof.
  by rewrite !recordBelongsToZone_direct_child, !Trim_outer_dots.
Qed.

(** X2. A name made of dots only, the empty name included, neither
    belongs to any zone nor owns any record. *)
Theorem recordBelongsToZone_rejects_empty_names r z n :
  recordBelongsToZone (dots n) z = false
  /\ recordBelongsToZone r (dots n) = false.
Proof.
  assert (Hempty : strings.Trim (dots n) "." = "").
  { pose proof (Trim_outer_dots "" n 0) as H. simpl in H.
    by rewrite string_app_nil_r in H. }
  rewrite !recordBelongsToZone_direct_child, Hempty. split.
  - apply direct_child_rejects_other. by intros [|a pre].
  - apply direct_child_rejects_other. intros pre H.
    destruct (Trim_spec r) as [_ [_ Hend]]. by apply (Hend pre).
Qed.

(** X3. Ownership is one-way: a record that belongs to a zone is not
    that zone, and the zone does not belong to the record. *)
Theorem recordBelongsToZone_one_way r z :
  recordBelongsToZone r z = true ->
  strings.Trim r "." <> strings.Trim z "."
  /\ recordBelongsToZone z r = false.
Proof.
  intros (label & _ & Hr)%recordBelongsToZone_label.
  assert (Hlen : (String.length (strings.Trim z ".")
                  < String.length (strings.Trim r "."))%nat).
  { rewrite Hr, !string_length_app. simpl. lia. }
  split; [intros E; rewrite E in Hlen; lia |].
  destruct (recordBelongsToZone z r) eqn:Hback; [| done].
  apply recordBelongsToZone_label in Hback as (label' & _ & Hz).
  rewrite Hz, !string_length_app in Hlen. simpl in Hlen. lia.
Qed.

(** X4. Ownership does not reach down: a record of a record of a zone
    does not belong to the zone. *)
Theorem recordBelongsToZone_direct_only a b c :
  recordBelongsToZone a b = true ->
  recordBelongsToZone b c = true ->
  recordBelongsToZone a c = false.
Proof.
  intros (l1 & _ & Ha)%recordBelongsToZone_label
         (l2 & _ & Hb)%recordBelongsToZone_label.
  destruct (recordBelongsToZone a c) eqn:Hac; [| done].
  apply recordBelongsToZone_label in Hac as (l & [_ Hl] & Ha').
  rewrite Ha, Hb in Ha'.
  assert (E : (l1 +:+ "." +:+ l2) +:+ ("." +:+ strings.Trim c ".")
              = l +:+ ("." +:+ strings.Trim c ".")).
  { rewrite !string_app_assoc. exact Ha'. }
  apply string_app_cancel_r in E. by destruct (Hl l1 l2).
Qed.

(** X5. A record belongs to one zone at most: two zones that both own
    it are the same name, dots around them apart. *)
Theorem recordBelongsToZone_one_zone r z z' :
  recordBelongsToZone r z = true ->
  recordBelongsToZone r z' = true ->
  strings.Trim z "." = strings.Trim z' ".".
Proof.
  intros (l & Hl & Hr)%recordBelongsToZone_label
         (l' & Hl' & Hr')%recordBelongsToZone_label.
  rewrite Hr in Hr'.
  by destruct (label_dot_split _ _ _ _ Hl Hl' Hr') as [_ ?].
Qed.

End OwnershipRelation.

Lemma recordBelongsToZone_one_way_witness :
  recordBelongsToZone "foo.example.com." "example.com" = true
  /\ strings.Trim "foo.example.com." "." <> strings.Trim "example.com" "."
  /\ recordBelongsToZone "example.com" "foo.example.com." = false.
Proof.
  split; [reflexivity |].
  apply (recordBelongsToZone_one_way "foo.example.com." "example.com").
  reflexivity.
Defined.

Lemma recordBelongsToZone_direct_only_witness :
  recordBelongsToZone "a.b.example.com" "b.example.com." = true
  /\ recordBelongsToZone "b.example.com." "example.com" = true
  /\ recordBelongsToZone "a.b.example.com" "example.com" = false.
Proof.
  split; [reflexivity |]. split; [reflexivity |].
  apply (recordBelongsToZone_direct_only "a.b.example.com" "b.example.com."
           "example.com"); reflexivity.
Defined.

Lemma recordBelongsToZone_one_zone_witness :
  recordBelongsToZone "foo.example.com" "example.com." = true
  /\ recordBelongsToZone "foo.example.com" ".example.com" = true
  /\ strings.Trim "example.com." "." = strings.Trim ".example.com" ".".
Proof.
  split; [reflexivity |]. split; [reflexivity |].
  apply (recordBelongsToZone_one_zone "foo.example.com" "example.com."
           ".example.com"); reflexivity.
Defined.

(** ** Submission and wait together *)

Section SubmitAndWait.

Context {P : Type}.
Implicit Types (w : world P) (z : route53Zone P) (sched : list select_case).

(** How the watcher ends is how its loop ends. *)
Lemma waitForChange_outcome z changeID sched w :
  (waitForChange z changeID sched w).2
  = (waitLoop z changeID sched (timers_running w)).2.
Proof.
  rewrite waitForChange_unfold. unfold timers_running.
  destruct (waitLoop _ _ _ _) as [w1 r]. by destruct r.
Qed.

(** The errors of the loop: the timeout, when the timeout case is taken,
    or an error of the provider. *)
Lemma waitLoop_errors z changeID sched : forall w e,
  (waitLoop z changeID sched w).2 = Returned (Some e) ->
  (e = errRoute53WaitWatchTimedOut /\ In timeout_C sched)
  \/ exists a, e = providerError a.
Proof.
  induction sched as [|[|] sched IH]; intros w e.
  - done.
  - cbn [waitLoop]. run.
    destruct (GetChange _ _ _) as [p1 [out [a|]]]; simpl.
    { intros [= <-]. right. by exists a. }
    destruct out as [out|]; simpl; [| done].
    destruct (route53.GetChangeOutput.ChangeInfo out) as [info|]; simpl;
      [| done].
    destruct (route53.ChangeInfo.Status info) as [status|]; simpl; [| done].
    destruct (String.eqb status _); simpl; [done |].
    intros H. destruct (IH _ _ H) as [[-> Hin] | Ha]; [left | by right].
    split; [done | by right].
  - simpl. intros [= <-]. left. split; [done | by left].
Qed.

(** The loop polls once per tick case at most, and not at all once the
    timeout case is taken. *)
Lemma waitLoop_poll_bound z changeID sched : forall w,
  exists n, (n <= ticks_before_timeout sched)%nat
    /\ calls (waitLoop z changeID sched w).1
       = calls w ++ replicate n (poll_call changeID).
Proof.
  induction sched as [|[|] sched IH]; intros w.
  - exists 0%nat. simpl. by rewrite app_nil_r.
  - cbn [waitLoop ticks_before_timeout]. run.
    assert (Hone : exists n : nat, (n <= S (ticks_before_timeout sched))%nat
      /\ calls w ++ [CallGetChange (route53.GetChangeInput.mk (Some changeID))]
         = calls w ++ replicate n (poll_call changeID)).
    { exists 1%nat. split; [lia | done]. }
    destruct (GetChange _ _ _) as [p1 [out [e|]]]; simpl; [done |].
    destruct out as [out|]; simpl; [| done].
    destruct (route53.GetChangeOutput.ChangeInfo out) as [info|]; simpl;
      [| done].
    destruct (route53.ChangeInfo.Status info) as [status|]; simpl; [| done].
    destruct (String.eqb status _); simpl; [done |].
    match goal with |- context [waitLoop z changeID sched ?w1] =>
      destruct (IH w1) as (n & Hle & Hc); rewrite Hc end.
    simpl. exists (S n). split; [lia |]. by rewrite <- app_assoc.
  - exists 0%nat. simpl. by rewrite app_nil_r.
Qed.

(** Once the check has passed and the provider has accepted the mutation
    and named the change, [changeCname] is the wait for that change. *)
Lemma changeCname_submitted z action recordName value sched w p1 resp info id :
  recordBelongsToZone recordName (Name z) = true ->
  ChangeResourceRecordSets (api z)
    (mutation (ID z) action recordName value) (stub w)
    = (p1, (Some resp, None)) ->
  route53.ChangeResourceRecordSetsOutput.ChangeInfo resp = Some info ->
  route53.ChangeInfo.Id info = Some id ->
  changeCname z action recordName value sched w
  = waitForChange z id sched
      (submitted w (mutation (ID z) action recordName value) p1).
Proof.
  intros Hin Hsend Hinfo Hid. unfold changeCname. rewrite Hin. simpl. run.
  unfold mutation in Hsend. rewrite Hsend. simpl. rewrite Hinfo. simpl.
  by rewrite Hid.
Qed.

(** X6. When the provider refuses the mutation, [changeCname] returns
    the provider's error as it is: the mutation is its only call, it
    creates no timer, polls nothing and logs nothing. *)
Theorem changeCname_submit_error z action recordName value sched w p1 resp e :
  recordBelongsToZone recordName (Name z) = true ->
  ChangeResourceRecordSets (api z)
    (mutation (ID z) action recordName value) (stub w)
    = (p1, (resp, Some e)) ->
  changeCname z action recordName value sched w
  = (sent w (mutation (ID z) action recordName value) p1,
     Returned (Some (providerError e))).
Proof.
  intros Hin Hsend. unfold changeCname. rewrite Hin. simpl. run.
  unfold mutation in Hsend. by rewrite Hsend.
Qed.

(** X7. Submission and wait, end to end.  Once the check has passed and
    the provider has accepted the mutation and named the change, the
    polls are polls of that change.  After any polls that did not report
    INSYNC: an INSYNC poll makes [changeCname] return [nil], the
    deadline makes it return the timeout error, and a failing poll makes
    it return the provider's error; in each case the mutation has been
    sent once and both timers are stopped. *)
Theorem changeCname_submit_then_wait
    z action recordName value sched w p1 resp info id sts p2 :
  recordBelongsToZone recordName (Name z) = true ->
  ChangeResourceRecordSets (api z)
    (mutation (ID z) action recordName value) (stub w)
    = (p1, (Some resp, None)) ->
  route53.ChangeResourceRecordSetsOutput.ChangeInfo resp = Some info ->
  route53.ChangeInfo.Id info = Some id ->
  observes (api z) id p1 sts p2 ->
  Forall (fun status => status <> route53.ChangeStatusInsync) sts ->
  (forall p3,
     observes (api z) id p2 [route53.ChangeStatusInsync] p3 ->
     changeCname z action recordName value
       (replicate (length sts) tick_C ++ tick_C :: sched) w
     = (timers_released
          (polled_last
             (polled (submitted w (mutation (ID z) action recordName value)
                        p1)
                id (length sts) p2)
             id p3),
        Returned None))
  /\ changeCname z action recordName value
       (replicate (length sts) tick_C ++ timeout_C :: sched) w
     = (timers_released
          (polled (submitted w (mutation (ID z) action recordName value) p1)
             id (length sts) p2),
        Returned (Some errRoute53WaitWatchTimedOut))
  /\ (forall p3 out e,
        GetChange (api z) (route53.GetChangeInput.mk (Some id)) p2
          = (p3, (out, Some e)) ->
        changeCname z action recordName value
          (replicate (length sts) tick_C ++ tick_C :: sched) w
        = (timers_released
             (polled_last
                (polled (submitted w
                           (mutation (ID z) action recordName value) p1)
                   id (length sts) p2)
                id p3),
           Returned (Some (providerError e)))).
Proof.
  intros Hin Hsend Hinfo Hid Hobs Hsts.
  rewrite !(changeCname_submitted _ _ _ _ _ _ _ _ _ _ Hin Hsend Hinfo Hid).
  rewrite !(waitForChange_observes z id
              (submitted w (mutation (ID z) action recordName value) p1)
              sts p2 _ Hobs Hsts).
  split; [| split].
  - intros p3 Hlast.
    inversion Hlast as [| ? ? ? out info' ? ? Hget Hinfo' Hstatus Hnil]; subst.
    inversion Hnil; subst.
    cbn [waitLoop]. run. rewrite Hget. simpl. rewrite Hinfo'. simpl.
    by rewrite Hstatus.
  - done.
  - intros p3 out e Hget. cbn [waitLoop]. run. by rewrite Hget.
Qed.

(** X8. When the provider accepts the mutation but its answer names no
    change (the output, its change info or the identifier is [nil]),
    [changeCname] panics: the mutation has been sent and logged, and no
    timer has been created. *)
Theorem changeCname_missing_change_id
    z action recordName value sched w p1 resp :
  recordBelongsToZone recordName (Name z) = true ->
  ChangeResourceRecordSets (api z)
    (mutation (ID z) action recordName value) (stub w)
    = (p1, (resp, None)) ->
  (resp ≫= route53.ChangeResourceRecordSetsOutput.ChangeInfo)
    ≫= route53.ChangeInfo.Id = None ->
  changeCname z action recordName value sched w
  = (submitted w (mutation (ID z) action recordName value) p1, Panicked).
Proof.
  intros Hin Hsend Hnone. unfold changeCname. rewrite Hin. simpl. run.
  unfold mutation in Hsend. rewrite Hsend. simpl.
  destruct resp as [resp|]; simpl in *; [| done].
  destruct (route53.ChangeResourceRecordSetsOutput.ChangeInfo resp)
    as [info|]; simpl in *; [| done].
  by rewrite Hnone.
Qed.

(** X9. [changeCname] leaves no timer running: whenever it exits, the
    timers are those there were before, followed, if it got as far as
    waiting, by its two timers, both stopped. *)
Theorem changeCname_no_running_timer z action recordName value sched w :
  (changeCname z action recordName value sched w).2 <> Blocked ->
  timers (changeCname z action recordName value sched w).1 = timers w
  \/ timers (changeCname z action recordName value sched w).1
     = timers w ++ stopped_timers.
Proof.
  unfold changeCname.
  destruct (recordBelongsToZone recordName (Name z)); simpl; [| by left].
  run.
  destruct (ChangeResourceRecordSets _ _ _) as [p1 [resp [e|]]]; simpl;
    [by left |].
  destruct resp as [resp|]; simpl; [| by left].
  destruct (route53.ChangeResourceRecordSetsOutput.ChangeInfo resp)
    as [info|]; simpl; [| by left].
  destruct (route53.ChangeInfo.Id info) as [id|]; simpl; [| by left].
  rewrite waitForChange_unfold.
  destruct (waitLoop _ _ _ _) as [w1 r]. destruct r; simpl; try done;
    intros _; by right.
Qed.

(** X10. The watcher polls once per tick case at most and never after
    the timeout case is taken: its calls to the provider are polls of
    the given change, no more of them than the schedule has tick cases
    before its first timeout case. *)
Theorem waitForChange_poll_bound z changeID sched w :
  exists n, (n <= ticks_before_timeout sched)%nat
    /\ calls (waitForChange z changeID sched w).1
       = calls w ++ replicate n (poll_call changeID).
Proof.
  rewrite waitForChange_unfold.
  match goal with |- context [waitLoop z changeID sched ?w0] =>
    destruct (waitLoop_poll_bound z changeID sched w0) as (n & Hle & Hc);
    destruct (waitLoop z changeID sched w0) as [w1 r] end.
  exists n. split; [done |]. by destruct r.
Qed.

(** X11. Only INSYNC ends the wait with success.  Whatever the statuses
    the polls report, as long as none is INSYNC (PENDING, an unknown
    word, the empty string), the watcher goes on: it is still waiting,
    its timers running, when the schedule ends there, and it returns the
    timeout error when the deadline comes. *)
Theorem waitForChange_waits_unless_insync z changeID w sts p' sched :
  observes (api z) changeID (stub w) sts p' ->
  Forall (fun status => status <> route53.ChangeStatusInsync) sts ->
  waitForChange z changeID (replicate (length sts) tick_C) w
  = (polled (timers_running w) changeID (length sts) p', Blocked)
  /\ waitForChange z changeID
       (replicate (length sts) tick_C ++ timeout_C :: sched) w
     = (timers_released (polled w changeID (length sts) p'),
        Returned (Some errRoute53WaitWatchTimedOut)).
Proof.
  intros Hobs Hsts. split.
  - rewrite <- (app_nil_r (replicate _ _)).
    by rewrite (waitForChange_observes _ _ _ _ _ _ Hobs Hsts).
  - by rewrite (waitForChange_observes _ _ _ _ _ _ Hobs Hsts).
Qed.

(** X12. [errRoute53RecordNotInZone] means the check and nothing else:
    [changeCname] ends with it exactly when [recordBelongsToZone]
    rejects the record name for the name of the zone. *)
Theorem changeCname_RecordNotInZone_iff z action recordName value sched w :
  (changeCname z action recordName value sched w).2
    = Returned (Some errRoute53RecordNotInZone)
  <-> recordBelongsToZone recordName (Name z) = false.
Proof.
  unfold changeCname.
  destruct (recordBelongsToZone recordName (Name z)); simpl; [| done].
  split; [| done]. run.
  destruct (ChangeResourceRecordSets _ _ _) as [p1 [resp [e|]]]; simpl;
    [done |].
  destruct resp as [resp|]; simpl; [| done].
  destruct (route53.ChangeResourceRecordSetsOutput.ChangeInfo resp)
    as [info|]; simpl; [| done].
  destruct (route53.ChangeInfo.Id info) as [id|]; simpl; [| done].
  rewrite waitForChange_outcome.
  intros H. by destruct (waitLoop_errors _ _ _ _ _ H) as [[? _] | [a ?]].
Qed.

(** X13. The timeout is reported only after the mutation has been sent:
    when [changeCname] returns [errRoute53WaitWatchTimedOut], the check
    had passed, the timeout case was taken, the mutation is in the
    calls made, followed by polls only, and both timers are stopped. *)
Theorem changeCname_timeout_after_submission
    z action recordName value sched w :
  (changeCname z action recordName value sched w).2
    = Returned (Some errRoute53WaitWatchTimedOut) ->
  recordBelongsToZone recordName (Name z) = true
  /\ In timeout_C sched
  /\ (exists polls,
        Forall is_poll polls
        /\ calls (changeCname z action recordName value sched w).1
           = calls w ++
             CallChangeResourceRecordSets
               (mutation (ID z) action recordName value) :: polls)
  /\ timers (changeCname z action recordName value sched w).1
     = timers w ++ stopped_timers.
Proof.
  intros Hout.
  destruct (recordBelongsToZone recordName (Name z)) eqn:Hin.
  2: { unfold changeCname in Hout. by rewrite Hin in Hout. }
  split; [done |].
  assert (Hwait : In timeout_C sched
    /\ timers (changeCname z action recordName value sched w).1
       = timers w ++ stopped_timers).
  { revert Hout. unfold changeCname. rewrite Hin. simpl. run.
    destruct (ChangeResourceRecordSets _ _ _) as [p1 [resp [e|]]]; simpl;
      [done |].
    destruct resp as [resp|]; simpl; [| done].
    destruct (route53.ChangeResourceRecordSetsOutput.ChangeInfo resp)
      as [info|]; simpl; [| done].
    destruct (route53.ChangeInfo.Id info) as [id|]; simpl; [| done].
    rewrite waitForChange_unfold.
    match goal with |- context [waitLoop z id sched ?w0] =>
      pose proof (waitLoop_errors z id sched w0) as Herr;
      destruct (waitLoop z id sched w0) as [w2 r] end.
    destruct r as [[e|]| |]; simpl; try done.
    intros [= ->].
    by destruct (Herr _ eq_refl) as [[_ ?] | [a ?]]. }
  destruct Hwait as [Htimeout Htimers].
  split; [done |]. split; [| done].
  apply (changeCname_calls z action recordName value sched w Hin).
Qed.

End SubmitAndWait.

(** ** More on zone resolution *)

Section Resolution.

Context {P : Type}.
Implicit Types (w : world P) (z : route53Zone P).

(** The copy loop leaves the world alone. *)
Lemma copyNameServers_world (nameServers : list (option string)) :
  forall i dst w, (copyNameServers i nameServers dst w).1 = w.
Proof.
  induction nameServers as [|[v|] rest IH]; intros i dst w; simpl.
  - done.
  - run. apply IH.
  - done.
Qed.

Lemma copyNameServers_nil_entry (nameServers : list (option string)) i dst w :
  In None nameServers ->
  copyNameServers i nameServers dst w = (w, Panicked).
Proof.
  intros Hin.
  destruct (copyNameServers_None nameServers i dst w) as [w' Hrun].
  - intros nss ->. apply in_map_iff in Hin as (v & Hv & _). done.
  - pose proof (copyNameServers_world nameServers i dst w) as Hw.
    rewrite Hrun in Hw. simpl in Hw. by rewrite Hrun, Hw.
Qed.

(** The world [newRoute53Zone] leaves is the one [setZone] leaves. *)
Lemma newRoute53Zone_world name (a : Route53API P) w :
  (newRoute53Zone name a w).1 = (setZone (mkZone a "" "" []) name w).1.
Proof.
  rewrite newRoute53Zone_unfold.
  by destruct (setZone _ _ _) as [w' [[z' [e|]]| |]].
Qed.

(** X14. Resolution succeeds when the provider lists first a zone of
    exactly the requested name and answers the fetch of that zone with
    an identifier and a delegation set without [nil] entries: the handle
    then holds the requested name, that identifier and those name
    servers, in their order and number, whatever it held before; two
    calls have been made and one line logged. *)
Theorem setZone_found z name w p1 out first rest p2 zone hostedZone id
    delegationSet nss :
  ListHostedZonesByName (api z)
    (route53.ListHostedZonesByNameInput.mk (Some name) (Some "1")) (stub w)
    = (p1, (Some out, None)) ->
  route53.ListHostedZonesByNameOutput.HostedZones out = Some first :: rest ->
  route53.HostedZone.Name first = Some name ->
  GetHostedZone (api z)
    (route53.GetHostedZoneInput.mk (route53.HostedZone.Id first)) p1
    = (p2, (Some zone, None)) ->
  route53.GetHostedZoneOutput.HostedZone zone = Some hostedZone ->
  route53.HostedZone.Id hostedZone = Some id ->
  route53.GetHostedZoneOutput.DelegationSet zone = Some delegationSet ->
  route53.DelegationSet.NameServers delegationSet = map Some nss ->
  setZone z name w
  = (found w name (route53.HostedZone.Id first) p2 id,
     Returned (mkZone (api z) name id nss, None))
  /\ newRoute53Zone name (api z) w
     = (found w name (route53.HostedZone.Id first) p2 id,
        Returned (Some (mkZone (api z) name id nss), None)).
Proof.
  intros Hlist Hzones Hname Hget Hzone Hid Hset Hnss.
  assert (Hany : forall z0, api z0 = api z ->
    setZone z0 name w
    = (found w name (route53.HostedZone.Id first) p2 id,
       Returned (mkZone (api z) name id nss, None))).
  { intros z0 Hapi. unfold setZone. rewrite Hapi. run.
    rewrite Hlist. simpl. rewrite Hzones. simpl. rewrite Hname. simpl.
    rewrite String.eqb_refl. simpl. rewrite Hget. simpl.
    rewrite Hzone. simpl. rewrite Hid. simpl. rewrite Hset. simpl.
    rewrite Hnss. rewrite (copyNameServers_Some nss []). simpl.
    by rewrite <- app_assoc. }
  split; [by apply Hany |].
  rewrite newRoute53Zone_unfold. by rewrite (Hany (mkZone (api z) "" "" [])).
Qed.

(** X15. Resolution only reads: whatever the provider answers and however
    it ends, [setZone] and [newRoute53Zone] create no timer and call the
    provider once, to list the zones, or twice, to list them and then to
    fetch one; they never submit a change nor poll one. *)
Theorem setZone_read_only z name w :
  timers (setZone z name w).1 = timers w
  /\ (calls (setZone z name w).1
      = calls w ++
        [CallListHostedZonesByName
           (route53.ListHostedZonesByNameInput.mk (Some name) (Some "1"))]
      \/ exists id,
          calls (setZone z name w).1
          = calls w ++
            [CallListHostedZonesByName
               (route53.ListHostedZonesByNameInput.mk (Some name) (Some "1"));
             CallGetHostedZone (route53.GetHostedZoneInput.mk id)])
  /\ (newRoute53Zone name (api z) w).1
     = (setZone (mkZone (api z) "" "" []) name w).1.
Proof.
  split; [| split; [| apply newRoute53Zone_world]].
  - unfold setZone. run.
    destruct (ListHostedZonesByName _ _ _) as [p1 [out [e|]]]; simpl;
      [done |].
    destruct out as [out|]; simpl; [| done].
    destruct (route53.ListHostedZonesByNameOutput.HostedZones out)
      as [|[first|] rest]; simpl; [done | | done].
    destruct (route53.HostedZone.Name first) as [firstName|]; simpl;
      [| done].
    destruct (String.eqb firstName name); simpl; [| done].
    destruct (GetHostedZone _ _ _) as [p2 [zone [e|]]]; simpl; [done |].
    destruct zone as [zone|]; simpl; [| done].
    destruct (route53.GetHostedZoneOutput.HostedZone zone) as [hostedZone|];
      simpl; [| done].
    destruct (route53.HostedZone.Id hostedZone) as [id|]; simpl; [| done].
    destruct (route53.GetHostedZoneOutput.DelegationSet zone)
      as [delegationSet|]; simpl; [| done].
    match goal with |- context [copyNameServers 0 ?l ?dst ?w0] =>
      pose proof (copyNameServers_world l 0%nat dst w0) as Hw;
      destruct (copyNameServers 0 l dst w0) as [w1 [nss| |]] end;
      simpl in *; by subst.
  - unfold setZone. run.
    destruct (ListHostedZonesByName _ _ _) as [p1 [out [e|]]]; simpl;
      [by left |].
    destruct out as [out|]; simpl; [| by left].
    destruct (route53.ListHostedZonesByNameOutput.HostedZones out)
      as [|[first|] rest]; simpl; [by left | | by left].
    destruct (route53.HostedZone.Name first) as [firstName|]; simpl;
      [| by left].
    destruct (String.eqb firstName name); simpl; [| by left].
    right. exists (route53.HostedZone.Id first).
    destruct (GetHostedZone _ _ _) as [p2 [zone [e|]]]; simpl;
      rewrite <- app_assoc; simpl; [done |].
    destruct zone as [zone|]; simpl; [| done].
    destruct (route53.GetHostedZoneOutput.HostedZone zone) as [hostedZone|];
      simpl; [| done].
    destruct (route53.HostedZone.Id hostedZone) as [id|]; simpl; [| done].
    destruct (route53.GetHostedZoneOutput.DelegationSet zone)
      as [delegationSet|]; simpl; [| done].
    match goal with |- context [copyNameServers 0 ?l ?dst ?w0] =>
      pose proof (copyNameServers_world l 0%nat dst w0) as Hw;
      destruct (copyNameServers 0 l dst w0) as [w1 [nss| |]] end;
      simpl in *; by subst.
Qed.

(** X16. A fetched zone without a delegation set, or with a [nil] among
    its name servers, makes resolution panic instead of returning an
    error: both calls have been made and the zone found has been
    logged. *)
Theorem newRoute53Zone_missing_delegation_set
    name (a : Route53API P) w p1 out first rest p2 zone hostedZone id :
  ListHostedZonesByName a
    (route53.ListHostedZonesByNameInput.mk (Some name) (Some "1")) (stub w)
    = (p1, (Some out, None)) ->
  route53.ListHostedZonesByNameOutput.HostedZones out = Some first :: rest ->
  route53.HostedZone.Name first = Some name ->
  GetHostedZone a
    (route53.GetHostedZoneInput.mk (route53.HostedZone.Id first)) p1
    = (p2, (Some zone, None)) ->
  route53.GetHostedZoneOutput.HostedZone zone = Some hostedZone ->
  route53.HostedZone.Id hostedZone = Some id ->
  (route53.GetHostedZoneOutput.DelegationSet zone = None
   \/ exists delegationSet,
        route53.GetHostedZoneOutput.DelegationSet zone = Some delegationSet
        /\ In None (route53.DelegationSet.NameServers delegationSet)) ->
  newRoute53Zone name a w
  = (found w name (route53.HostedZone.Id first) p2 id, Panicked).
Proof.
  intros Hlist Hzones Hname Hget Hzone Hid Hset.
  rewrite newRoute53Zone_unfold. unfold setZone. run.
  rewrite Hlist. simpl. rewrite Hzones. simpl. rewrite Hname. simpl.
  rewrite String.eqb_refl. simpl. rewrite Hget. simpl.
  rewrite Hzone. simpl. rewrite Hid. simpl. rewrite <- app_assoc. simpl.
  destruct Hset as [-> | (delegationSet & -> & Hnil)]; simpl; [done |].
  by rewrite (copyNameServers_nil_entry _ _ _ _ Hnil).
Qed.

End Resolution.

Lemma changeCname_submit_error_witness :
  recordBelongsToZone "foo.example.com" (Name Stub.handle) = true
  /\ UpsertCname Stub.handle "foo.example.com" "target.example.net"
       [tick_C; timeout_C] (Stub.start Stub.refusing)
     = (sent (Stub.start Stub.refusing)
          (mutation "/hostedzone/Z1" "UPSERT" "foo.example.com"
             "target.example.net")
          Stub.refusing,
        Returned (Some (providerError Stub.exhausted))).
Proof.
  split; [reflexivity |].
  apply (changeCname_submit_error Stub.handle route53.ChangeActionUpsert
           "foo.example.com" "target.example.net" [tick_C; timeout_C]
           (Stub.start Stub.refusing) Stub.refusing None Stub.exhausted);
    reflexivity.
Defined.

Lemma changeCname_submit_then_wait_witness :
  DeleteCname Stub.handle "foo.example.com" [tick_C; tick_C; timeout_C]
    (Stub.start (Stub.example_com ["PENDING"; "INSYNC"]))
  = (timers_released
       (polled_last
          (polled
             (submitted
                (Stub.start (Stub.example_com ["PENDING"; "INSYNC"]))
                (mutation "/hostedzone/Z1" "DELETE" "foo.example.com" "")
                (Stub.example_com ["PENDING"; "INSYNC"]))
             "C1" 1 (Stub.example_com ["INSYNC"]))
          "C1" (Stub.example_com [])),
     Returned None)
  /\ DeleteCname Stub.handle "foo.example.com" [tick_C; timeout_C; tick_C]
       (Stub.start (Stub.example_com ["PENDING"; "INSYNC"]))
     = (timers_released
          (polled
             (submitted
                (Stub.start (Stub.example_com ["PENDING"; "INSYNC"]))
                (mutation "/hostedzone/Z1" "DELETE" "foo.example.com" "")
                (Stub.example_com ["PENDING"; "INSYNC"]))
             "C1" 1 (Stub.example_com ["INSYNC"])),
        Returned (Some errRoute53WaitWatchTimedOut)).
Proof.
  assert (Hobs : observes Stub.provider "C1"
            (Stub.example_com ["PENDING"; "INSYNC"]) ["PENDING"]
            (Stub.example_com ["INSYNC"])).
  { eapply observes_cons; [reflexivity | reflexivity | reflexivity |].
    apply observes_nil. }
  assert (Hsts : Forall
            (fun status => status <> route53.ChangeStatusInsync) ["PENDING"]).
  { repeat constructor. discriminate. }
  split.
  - apply (proj1 (changeCname_submit_then_wait Stub.handle
                    route53.ChangeActionDelete "foo.example.com" ""
                    [timeout_C]
                    (Stub.start (Stub.example_com ["PENDING"; "INSYNC"]))
                    (Stub.example_com ["PENDING"; "INSYNC"])
                    (route53.ChangeResourceRecordSetsOutput.mk
                       (Some (route53.ChangeInfo.mk (Some "C1")
                                (Some route53.ChangeStatusPending))))
                    (route53.ChangeInfo.mk (Some "C1")
                       (Some route53.ChangeStatusPending))
                    "C1" ["PENDING"] (Stub.example_com ["INSYNC"])
                    eq_refl eq_refl eq_refl eq_refl Hobs Hsts)).
    eapply observes_cons; [reflexivity | reflexivity | reflexivity |].
    apply observes_nil.
  - apply (proj1 (proj2 (changeCname_submit_then_wait Stub.handle
                    route53.ChangeActionDelete "foo.example.com" ""
                    [tick_C]
                    (Stub.start (Stub.example_com ["PENDING"; "INSYNC"]))
                    (Stub.example_com ["PENDING"; "INSYNC"])
                    (route53.ChangeResourceRecordSetsOutput.mk
                       (Some (route53.ChangeInfo.mk (Some "C1")
                                (Some route53.ChangeStatusPending))))
                    (route53.ChangeInfo.mk (Some "C1")
                       (Some route53.ChangeStatusPending))
                    "C1" ["PENDING"] (Stub.example_com ["INSYNC"])
                    eq_refl eq_refl eq_refl eq_refl Hobs Hsts))).
Defined.

Lemma changeCname_missing_change_id_witness :
  UpsertCname Stub.handle "foo.example.com" "target.example.net"
    [tick_C; timeout_C] (Stub.start Stub.unnamed)
  = (submitted (Stub.start Stub.unnamed)
       (mutation "/hostedzone/Z1" "UPSERT" "foo.example.com"
          "target.example.net")
       Stub.unnamed,
     Panicked).
Proof.
  apply (changeCname_missing_change_id Stub.handle route53.ChangeActionUpsert
           "foo.example.com" "target.example.net" [tick_C; timeout_C]
           (Stub.start Stub.unnamed) Stub.unnamed
           (Some (route53.ChangeResourceRecordSetsOutput.mk
                    (Some (route53.ChangeInfo.mk None
                             (Some route53.ChangeStatusPending))))));
    reflexivity.
Defined.

Lemma changeCname_no_running_timer_witness :
  (* the wait was reached *)
  (timers (UpsertCname Stub.handle "foo.example.com" "target.example.net"
             [tick_C; timeout_C]
             (Stub.start (Stub.example_com ["PENDING"]))).1
   = []
   \/ timers (UpsertCname Stub.handle "foo.example.com" "target.example.net"
                [tick_C; timeout_C]
                (Stub.start (Stub.example_com ["PENDING"]))).1
      = [] ++ stopped_timers)
  (* the mutation was refused *)
  /\ (timers (UpsertCname Stub.handle "foo.example.com" "target.example.net"
                [tick_C; timeout_C] (Stub.start Stub.refusing)).1
      = []
      \/ timers (UpsertCname Stub.handle "foo.example.com"
                   "target.example.net"
                   [tick_C; timeout_C] (Stub.start Stub.refusing)).1
         = [] ++ stopped_timers).
Proof.
  split.
  - apply (changeCname_no_running_timer Stub.handle
             route53.ChangeActionUpsert "foo.example.com"
             "target.example.net" [tick_C; timeout_C]
             (Stub.start (Stub.example_com ["PENDING"]))).
    discriminate.
  - apply (changeCname_no_running_timer Stub.handle
             route53.ChangeActionUpsert "foo.example.com"
             "target.example.net" [tick_C; timeout_C]
             (Stub.start Stub.refusing)).
    discriminate.
Defined.

Lemma waitForChange_waits_unless_insync_witness :
  waitForChange Stub.handle "C1" [tick_C; tick_C; tick_C]
    (Stub.start (Stub.example_com ["PENDING"; "UNKNOWN"; ""]))
  = (polled
       (timers_running
          (Stub.start (Stub.example_com ["PENDING"; "UNKNOWN"; ""])))
       "C1" 3 (Stub.example_com []),
     Blocked)
  /\ waitForChange Stub.handle "C1" [tick_C; tick_C; tick_C; timeout_C]
       (Stub.start (Stub.example_com ["PENDING"; "UNKNOWN"; ""]))
     = (timers_released
          (polled (Stub.start (Stub.example_com ["PENDING"; "UNKNOWN"; ""]))
             "C1" 3 (Stub.example_com [])),
        Returned (Some errRoute53WaitWatchTimedOut)).
Proof.
  apply (waitForChange_waits_unless_insync Stub.handle "C1"
           (Stub.start (Stub.example_com ["PENDING"; "UNKNOWN"; ""]))
           ["PENDING"; "UNKNOWN"; ""] (Stub.example_com []) []).
  - repeat (eapply observes_cons; [reflexivity | reflexivity | reflexivity |]).
    apply observes_nil.
  - repeat constructor; discriminate.
Defined.

Lemma changeCname_timeout_after_submission_witness :
  (DeleteCname Stub.handle "foo.example.com" [tick_C; timeout_C]
     (Stub.start (Stub.example_com ["PENDING"]))).2
  = Returned (Some errRoute53WaitWatchTimedOut)
  /\ recordBelongsToZone "foo.example.com" (Name Stub.handle) = true
  /\ In timeout_C [tick_C; timeout_C]
  /\ (exists polls,
        Forall is_poll polls
        /\ calls (DeleteCname Stub.handle "foo.example.com"
                    [tick_C; timeout_C]
                    (Stub.start (Stub.example_com ["PENDING"]))).1
           = [] ++
             CallChangeResourceRecordSets
               (mutation "/hostedzone/Z1" "DELETE" "foo.example.com" "")
             :: polls)
  /\ timers (DeleteCname Stub.handle "foo.example.com" [tick_C; timeout_C]
               (Stub.start (Stub.example_com ["PENDING"]))).1
     = [] ++ stopped_timers.
Proof.
  split; [reflexivity |].
  apply (changeCname_timeout_after_submission Stub.handle
           route53.ChangeActionDelete "foo.example.com" ""
           [tick_C; timeout_C] (Stub.start (Stub.example_com ["PENDING"]))).
  reflexivity.
Defined.

Lemma setZone_found_witness :
  newRoute53Zone "example.com." Stub.provider
    (Stub.start (Stub.example_com []))
  = (found (Stub.start (Stub.example_com [])) "example.com."
       (Some "/hostedzone/Z1") (Stub.example_com []) "/hostedzone/Z1",
     Returned
       (Some (mkZone Stub.provider "example.com." "/hostedzone/Z1"
                ["ns-1.awsdns.com"; "ns-2.awsdns.org"]),
        None)).
Proof.
  apply (proj2 (setZone_found
           (mkZone Stub.provider "old.example.org." "/hostedzone/OLD"
              ["ns-9.awsdns.net"])
           "example.com." (Stub.start (Stub.example_com []))
           (Stub.example_com [])
           (route53.ListHostedZonesByNameOutput.mk
              [Some (route53.HostedZone.mk (Some "/hostedzone/Z1")
                       (Some "example.com."))])
           (route53.HostedZone.mk (Some "/hostedzone/Z1")
              (Some "example.com."))
           [] (Stub.example_com [])
           (route53.GetHostedZoneOutput.mk
              (Some (route53.HostedZone.mk (Some "/hostedzone/Z1")
                       (Some "example.com.")))
              (Some (route53.DelegationSet.mk
                       [Some "ns-1.awsdns.com"; Some "ns-2.awsdns.org"])))
           (route53.HostedZone.mk (Some "/hostedzone/Z1")
              (Some "example.com."))
           "/hostedzone/Z1"
           (route53.DelegationSet.mk
              [Some "ns-1.awsdns.com"; Some "ns-2.awsdns.org"])
           ["ns-1.awsdns.com"; "ns-2.awsdns.org"]
           eq_refl eq_refl eq_refl eq_refl eq_refl eq_refl eq_refl eq_refl)).
Defined.

Lemma newRoute53Zone_missing_delegation_set_witness :
  newRoute53Zone "example.com." Stub.provider (Stub.start Stub.private_zone)
  = (found (Stub.start Stub.private_zone) "example.com."
       (Some "/hostedzone/Z1") Stub.private_zone "/hostedzone/Z1",
     Panicked).
Proof.
  apply (newRoute53Zone_missing_delegation_set "example.com." Stub.provider
           (Stub.start Stub.private_zone) Stub.private_zone
           (route53.ListHostedZonesByNameOutput.mk
              [Some (route53.HostedZone.mk (Some "/hostedzone/Z1")
                       (Some "example.com."))])
           (route53.HostedZone.mk (Some "/hostedzone/Z1")
              (Some "example.com."))
           [] Stub.private_zone
           (route53.GetHostedZoneOutput.mk
              (Some (route53.HostedZone.mk (Some "/hostedzone/Z1")
                       (Some "example.com.")))
              None)
           (route53.HostedZone.mk (Some "/hostedzone/Z1")
              (Some "example.com."))
           "/hostedzone/Z1"); try reflexivity.
  by left.
Defined.

(** ** What a success of the watcher means *)

Section WatcherSuccess.

Context {P : Type}.
Implicit Types (w : world P) (z : route53Zone P) (sched : list select_case).

Lemma waitLoop_nil z changeID sched : forall w,
  (waitLoop z changeID sched w).2 = Returned None ->
  exists sts p1,
    observes (api z) changeID (stub w) sts p1
    /\ Forall (fun status => status <> route53.ChangeStatusInsync) sts
    /\ observes (api z) changeID p1 [route53.ChangeStatusInsync]
         (stub (waitLoop z changeID sched w).1)
    /\ (S (length sts) <= ticks_before_timeout sched)%nat
    /\ calls (waitLoop z changeID sched w).1
       = calls w ++ replicate (S (length sts)) (poll_call changeID).
Proof.
  induction sched as [|[|] sched IH]; intros w.
  - done.
  - cbn [waitLoop ticks_before_timeout]. run.
    destruct (GetChange _ _ _) as [p1 [out [e|]]] eqn:Hget; simpl; [done |].
    destruct out as [out|]; simpl; [| done].
    destruct (route53.GetChangeOutput.ChangeInfo out) as [info|] eqn:Hinfo;
      simpl; [| done].
    destruct (route53.ChangeInfo.Status info) as [status|] eqn:Hstatus;
      simpl; [| done].
    destruct (String.eqb_spec status route53.ChangeStatusInsync)
      as [-> | Hne]; simpl.
    + intros _. exists [], (stub w). split; [apply observes_nil |].
      split; [constructor |]. split.
      * eapply observes_cons; [exact Hget | exact Hinfo | exact Hstatus |].
        apply observes_nil.
      * split; [simpl; lia | done].
    + intros Hnil.
      match type of Hnil with context [waitLoop z changeID sched ?w1] =>
        destruct (IH w1 Hnil) as (sts & p2 & Hobs & Hsts & Hlast & Hle & Hc)
      end.
      exists (status :: sts), p2. split.
      { eapply observes_cons; [exact Hget | exact Hinfo | exact Hstatus |].
        exact Hobs. }
      split; [by constructor |]. split; [exact Hlast |].
      split; [simpl; lia |].
      rewrite Hc. simpl. by rewrite <- app_assoc.
  - done.
Qed.

(** X17. The watcher reports success only on INSYNC: when it returns
    [nil], it has polled at least once, every poll but the last reported
    something else than INSYNC, the last one reported INSYNC, no poll
    failed, the deadline case was not taken before, and both timers are
    stopped. *)
Theorem waitForChange_nil_means_insync z changeID sched w :
  (waitForChange z changeID sched w).2 = Returned None ->
  exists sts p1,
    observes (api z) changeID (stub w) sts p1
    /\ Forall (fun status => status <> route53.ChangeStatusInsync) sts
    /\ observes (api z) changeID p1 [route53.ChangeStatusInsync]
         (stub (waitForChange z changeID sched w).1)
    /\ (S (length sts) <= ticks_before_timeout sched)%nat
    /\ calls (waitForChange z changeID sched w).1
       = calls w ++ replicate (S (length sts)) (poll_call changeID)
    /\ timers (waitForChange z changeID sched w).1
       = timers w ++ stopped_timers.
Proof.
  rewrite waitForChange_unfold.
  match goal with |- context [waitLoop z changeID sched ?w0] =>
    pose proof (waitLoop_nil z changeID sched w0) as Hnil;
    destruct (waitLoop z changeID sched w0) as [w1 r] end.
  destruct r as [[e|]| |]; simpl; try done.
  intros _. destruct (Hnil eq_refl) as (sts & p1 & H1 & H2 & H3 & H4 & H5).
  by exists sts, p1.
Qed.

End WatcherSuccess.

Lemma waitForChange_nil_means_insync_witness :
  (waitForChange Stub.handle "C1" [tick_C; tick_C; timeout_C]
     (Stub.start (Stub.example_com ["PENDING"; "INSYNC"]))).2
  = Returned None
  /\ exists sts p1,
       observes Stub.provider "C1" (Stub.example_com ["PENDING"; "INSYNC"])
         sts p1
       /\ Forall (fun status => status <> route53.ChangeStatusInsync) sts
       /\ observes Stub.provider "C1" p1 [route53.ChangeStatusInsync]
            (stub (waitForChange Stub.handle "C1"
                     [tick_C; tick_C; timeout_C]
                     (Stub.start
                        (Stub.example_com ["PENDING"; "INSYNC"]))).1)
       /\ (S (length sts)
           <= ticks_before_timeout [tick_C; tick_C; timeout_C])%nat
       /\ calls (waitForChange Stub.handle "C1" [tick_C; tick_C; timeout_C]
                   (Stub.start (Stub.example_com ["PENDING"; "INSYNC"]))).1
          = [] ++ replicate (S (length sts)) (poll_call "C1")
       /\ timers (waitForChange Stub.handle "C1" [tick_C; tick_C; timeout_C]
                    (Stub.start (Stub.example_com ["PENDING"; "INSYNC"]))).1
          = [] ++ stopped_timers.
Proof.
  split; [reflexivity |].
  apply (waitForChange_nil_means_insync Stub.handle "C1"
           [tick_C; tick_C; timeout_C]
           (Stub.start (Stub.example_com ["PENDING"; "INSYNC"]))).
  reflexivity.
Defined.
